(** * OAuth tooling: token acquisition, token introspection and the two
      request middlewares of [src/oauth-tooling.ts].

    The TypeScript module is a handful of promise chains around two outbound
    HTTP calls.  It is embedded here as state-passing functions over a
    [world] that records every externally visible action (file reads,
    outbound calls, token extraction, [next()], rejections) and holds the
    request object the middlewares share.

    [./utils] and [./constants] are not part of the sources at hand.  Their
    constants and pure helpers, and the platform ([fetch], [JSON.parse],
    [form-urlencoded], the file system), are variables of the section
    [OAuthTooling]; [getFileData] and [rejectRequest], which act on the
    world, are modelled from the specification. *)

From stdpp Require Import gmap strings list.
From Stdlib Require Import ZArith.

Local Open Scope Z_scope.

(** JavaScript's [+] on strings associates to the left. *)
Infix "+s+" := String.append (at level 50, left associativity).

(** ** JavaScript values *)

Inductive err_class := TypeError | SyntaxError | OtherError.

#[local] Set Warnings "-register-all".

(** The values that flow through the module: parsed JSON documents, the
    object literals it builds (an association list, in the order the literal
    is written) and error objects. *)
Inductive value :=
| VUndef
| VNull
| VBool (b : bool)
| VNum (n : Z)
| VStr (s : string)
| VArr (l : list value)
| VObj (fields : list (string * value))
| VErr (c : err_class) (message : string).

(** Outcome of a synchronous call: a value or a thrown exception. *)
Inductive result (A : Type) :=
| Ok (a : A)
| Throw (e : value).
Arguments Ok {A} a.
Arguments Throw {A} e.

Fixpoint assoc (k : string) (fields : list (string * value)) : value :=
  match fields with
  | [] => VUndef
  | (k', v) :: rest => if String.eqb k k' then v else assoc k rest
  end.

(** [v.k] for the data properties this module reads ([status], [scope], the
    credential fields): reading a property of [undefined] or [null] throws a
    [TypeError]; on an object that lacks it, and on every other value, the
    result is [undefined]. *)
Definition get_prop (v : value) (k : string) : result value :=
  match v with
  | VUndef => Throw (VErr TypeError ("Cannot read property '" +s+ k +s+ "' of undefined"))
  | VNull => Throw (VErr TypeError ("Cannot read property '" +s+ k +s+ "' of null"))
  | VObj fields => Ok (assoc k fields)
  | _ => Ok VUndef
  end.

(** [v === s] for a string constant [s]. *)
Definition strict_eq_str (v : value) (s : string) : bool :=
  match v with
  | VStr t => String.eqb t s
  | _ => false
  end.

Definition is_TypeError (v : value) : Prop :=
  match v with
  | VErr TypeError _ => True
  | _ => False
  end.

(** ** The outside world *)

(** An outbound HTTP call as handed to [fetch]. *)
Record outbound := mkOutbound {
  ob_url : string;
  ob_method : string;
  ob_body : option string;
  ob_headers : list (string * string)
}.

(** What [fetch] delivers: a response with its status whose [json()] either
    parses to a value or fails, a transport failure, or nothing at all: no
    timeout is set, so the promise of [fetch] stays pending when the endpoint
    never answers. *)
Record response := mkResponse {
  resp_status : Z;
  resp_json : result value
}.

Inductive fetch_result :=
| Responds (r : response)
| NetworkError (e : value)
| NoAnswer.

Inductive file_result :=
| FileData (contents : string)
| FileError (e : value).

(** The inbound request object, shared by the middlewares of one pipeline. *)
Record inbound := mkInbound {
  originalUrl : string;
  headers : list (string * string);
  req_scopes : option (list string)
}.

Inductive event :=
| EvReadFile (dir file : string)
| EvFetch (r : outbound)
| EvExtractToken (header : string)
| EvNext
| EvReject (status : Z).

(** [trace] is the log of actions, oldest first; [req] is the request object;
    [settled] is the state of the promise under construction by
    [new Promise]. *)
Record world := mkWorld {
  trace : list event;
  req : inbound;
  settled : option (result value)
}.

Definition log (e : event) (w : world) : world :=
  mkWorld (trace w ++ [e]) (req w) (settled w).

Definition set_req (r : inbound) (w : world) : world :=
  mkWorld (trace w) r (settled w).

Definition set_settled (s : option (result value)) (w : world) : world :=
  mkWorld (trace w) (req w) s.

(** ** Promises *)

(** A promise, observed once the event loop has drained: fulfilled, rejected,
    or never settled. *)
Inductive outcome (A : Type) :=
| Fulfilled (a : A)
| Rejected (e : value)
| Pending.
Arguments Fulfilled {A} a.
Arguments Rejected {A} e.
Arguments Pending {A}.

Definition Async (A : Type) : Type := world -> outcome A * world.

Definition ret {A} (a : A) : Async A := fun w => (Fulfilled a, w).

(** [throw e] inside a callback, or [Promise.reject(e)]. *)
Definition throw {A} (e : value) : Async A := fun w => (Rejected e, w).

Definition of_result {A} (r : result A) : Async A :=
  match r with
  | Ok a => ret a
  | Throw e => throw e
  end.

(** [p.then(f)]: [f] may return a value, throw, or return a promise. *)
Definition then_ {A B} (p : Async A) (f : A -> Async B) : Async B :=
  fun w =>
    match p w with
    | (Fulfilled a, w') => f a w'
    | (Rejected e, w') => (Rejected e, w')
    | (Pending, w') => (Pending, w')
    end.

(** [p.catch(g)]. *)
Definition catch_ {A} (p : Async A) (g : value -> Async A) : Async A :=
  fun w =>
    match p w with
    | (Rejected e, w') => g e w'
    | r => r
    end.

Notation "x <- p ;; k" := (then_ p (fun x => k))
  (at level 100, p at next level, right associativity).

(** [resolve] and [reject] of the promise under construction: the first call
    settles it, later calls are ignored; both return [undefined]. *)
Definition settle (s : result value) : Async value :=
  fun w =>
    (Fulfilled VUndef,
     match settled w with
     | None => set_settled (Some s) w
     | Some _ => w
     end).

(** [new Promise(function(resolve, reject) { ... })] where the executor starts
    a promise chain and drops it. *)
Definition new_Promise
    (executor : (value -> Async value) -> (value -> Async value) -> Async value)
    : Async value :=
  fun w =>
    let '(_, w') :=
      executor (fun v => settle (Ok v)) (fun e => settle (Throw e))
               (set_settled None w) in
    (match settled w' with
     | Some (Ok v) => Fulfilled v
     | Some (Throw e) => Rejected e
     | None => Pending
     end,
     set_settled (settled w) w').

(** [Promise.all([p, q])]: both promises already run (in array order); the
    result is rejected with the rejection that happens first. *)
Definition Promise_all2 {A} (second_fails_first : bool) (p q : Async A)
    : Async (A * A) :=
  fun w =>
    let '(r1, w1) := p w in
    let '(r2, w2) := q w1 in
    (match r1, r2 with
     | Fulfilled a, Fulfilled b => Fulfilled (a, b)
     | Rejected e1, Rejected e2 =>
         Rejected (if second_fails_first then e2 else e1)
     | Rejected e, _ => Rejected e
     | _, Rejected e => Rejected e
     | _, _ => Pending
     end, w2).

(** ** Constants *)

Module HttpStatus.
Definition OK : Z := 200.
Definition UNAUTHORIZED : Z := 401.
Definition FORBIDDEN : Z := 403.
End HttpStatus.

Definition AUTHORIZATION_HEADER_FIELD_NAME : string := "authorization".
Definition USER_JSON : string := "user.json".
Definition CLIENT_JSON : string := "client.json".
Definition OAUTH_CONTENT_TYPE : string := "application/x-www-form-urlencoded".

(** ** The module *)

Record getAccessToken_options := mkOptions {
  credentialsDir : string;
  grantType : value;
  accessTokenEndpoint : string;
  realm : string;
  opt_scopes : option (list string);
  code : value;
  redirectUri : value
}.

Record middleware_options := mkMwOptions {
  tokenInfoEndpoint : option string;
  publicEndpoints : option (list string)
}.

(** A call that either throws synchronously or returns a promise. *)
Inductive completion :=
| Threw (e : value)
| Returned (p : outcome value).

(** Truthiness of a [string | undefined]. *)
Definition truthy (s : option string) : bool :=
  match s with
  | Some t => negb (String.eqb t "")
  | None => false
  end.

(** [x || []]. *)
Definition or_empty (x : option (list string)) : list string :=
  match x with
  | Some l => l
  | None => []
  end.

(** ** A concrete platform

    Stand-ins for the helpers of [./utils], the constants of [./constants]
    and the platform, used to run the module on concrete inputs. *)

Module Sample.

Definition EMPLOYEES_REALM : string := "/employees".
Definition SERVICES_REALM : string := "/services".
Definition AUTHORIZATION_CODE_GRANT : string := "authorization_code".
Definition PASSWORD_CREDENTIALS_GRANT : string := "password".

Definition str (v : value) : string :=
  match v with
  | VStr s => s
  | _ => "undefined"
  end.

(** The base64 step of the real helper is left out. *)
Definition getBasicAuthHeaderValue (clientId clientSecret : value) : string :=
  "Basic " +s+ str clientId +s+ ":" +s+ str clientSecret.

Definition match_ (url : string) (patterns : list string) : bool :=
  existsb (fun p => String.prefix p url) patterns.

Definition strings_of (v : value) : option (list string) :=
  match v with
  | VArr l => Some (map str l)
  | _ => None
  end.

Definition setScopes (r : inbound) (data : value) : result inbound :=
  match get_prop data "scope" with
  | Ok v => Ok (mkInbound (originalUrl r) (headers r) (strings_of v))
  | Throw e => Throw e
  end.

Fixpoint header (name : string) (hs : list (string * string)) : string :=
  match hs with
  | [] => ""
  | (k, v) :: rest => if String.eqb k name then v else header name rest
  end.

Definition getHeaderValue (r : inbound) (fieldName : string) : string :=
  header fieldName (headers r).

Definition extractAccessToken (authHeader : string) : option string :=
  if String.prefix "Bearer " authHeader
  then Some (String.substring 7 (String.length authHeader - 7) authHeader)
  else None.

(** As the spec has it: the mandatory fields must be present and the grant
    type must be one of the two recognized grants; every failure is a
    [TypeError]. *)
Definition validateOAuthConfig (options : getAccessToken_options)
    : option value :=
  if String.eqb (credentialsDir options) ""
  then Some (VErr TypeError "credentialsDir must be defined")
  else if String.eqb (accessTokenEndpoint options) ""
  then Some (VErr TypeError "accessTokenEndpoint must be defined")
  else if String.eqb (realm options) ""
  then Some (VErr TypeError "realm must be defined")
  else if strict_eq_str (grantType options) PASSWORD_CREDENTIALS_GRANT
          || strict_eq_str (grantType options) AUTHORIZATION_CODE_GRANT
  then None
  else Some (VErr TypeError "grantType must be a recognized grant").

Definition user_json : string :=
  "{ 'application_username': 'stups', 'application_password': 'secret' }".
Definition client_json : string :=
  "{ 'client_id': 'frontend', 'client_secret': 'hush' }".

Definition userData : value :=
  VObj [("application_username", VStr "stups");
        ("application_password", VStr "secret")].
Definition clientData : value :=
  VObj [("client_id", VStr "frontend"); ("client_secret", VStr "hush")].

(** Parses the two credential documents above and nothing else. *)
Definition JSON_parse (s : string) : result value :=
  if String.eqb s user_json then Ok userData
  else if String.eqb s client_json then Ok clientData
  else Throw (VErr SyntaxError "Unexpected token").

(** No percent-encoding. *)
Definition formurlencoded (v : value) : string :=
  match v with
  | VObj fields =>
      String.concat "&" (map (fun kv => fst kv +s+ "=" +s+ str (snd kv)) fields)
  | _ => ""
  end.

Definition ENOENT : value := VErr OtherError "ENOENT: no such file or directory".

Definition fs (dir file : string) : file_result :=
  if String.eqb dir "credentials"
  then if String.eqb file "user.json" then FileData user_json
       else if String.eqb file "client.json" then FileData client_json
       else FileError ENOENT
  else FileError ENOENT.

Definition token_body : value :=
  VObj [("access_token", VStr "4b70510f-be1d-4f0f-b4cb-edbca2c79d41")].
Definition error_body : value :=
  VObj [("error", VStr "invalid_request")].

(** An endpoint that answers every call with 200 and [token_body]. *)
Definition net_ok (r : outbound) : fetch_result :=
  Responds (mkResponse 200 (Ok token_body)).

(** An endpoint that answers every call with 403 and [error_body]. *)
Definition net_forbidden (r : outbound) : fetch_result :=
  Responds (mkResponse 403 (Ok error_body)).

Definition request (url authorization : string) (s : option (list string))
    : inbound :=
  mkInbound url [("authorization", authorization)] s.

Definition w0 (r : inbound) : world := mkWorld [] r None.

Definition password_options (dir : string) (grant : value)
    : getAccessToken_options :=
  mkOptions dir grant "https://auth.example.org/oauth2/access_token"
    SERVICES_REALM (Some ["campaign.edit_all"; "campaign.read_all"])
    VUndef VUndef.

Definition code_options : getAccessToken_options :=
  mkOptions "credentials" (VStr AUTHORIZATION_CODE_GRANT)
    "https://auth.example.org/oauth2/access_token"
    EMPLOYEES_REALM None (VStr "c0de") (VStr "https://app.example.org/cb").

Definition mw_options : middleware_options :=
  mkMwOptions (Some "https://auth.example.org/oauth2/tokeninfo")
    (Some ["/health"; "/public"]).

(** More of the concrete platform: endpoints that fail in other ways, and
    credential directories with a missing, garbled or null document. *)

Definition ECONNREFUSED : value := VErr OtherError "connect ECONNREFUSED".
Definition invalid_json : value :=
  VErr SyntaxError "Unexpected token U in JSON at position 0".

(** An endpoint that never answers. *)
Definition net_silent (r : outbound) : fetch_result := NoAnswer.

(** No endpoint is listening. *)
Definition net_down (r : outbound) : fetch_result := NetworkError ECONNREFUSED.

(** An endpoint that answers every call with 401 and a body that is no JSON. *)
Definition net_text (r : outbound) : fetch_result :=
  Responds (mkResponse 401 (Throw invalid_json)).

(** An introspection endpoint that grants the scopes [A] and [B]. *)
Definition tokeninfo_body : value :=
  VObj [("scope", VArr [VStr "A"; VStr "B"])].
Definition net_scopes (r : outbound) : fetch_result :=
  Responds (mkResponse 200 (Ok tokeninfo_body)).

(** An introspection endpoint that answers 200 with the body [null]. *)
Definition net_null (r : outbound) : fetch_result :=
  Responds (mkResponse 200 (Ok VNull)).

Definition fs_more (dir file : string) : file_result :=
  if String.eqb dir "no-user"
  then if String.eqb file "client.json" then FileData client_json
       else FileError ENOENT
  else if String.eqb dir "no-client"
  then if String.eqb file "user.json" then FileData user_json
       else FileError ENOENT
  else if String.eqb dir "garbled-user"
  then if String.eqb file "user.json" then FileData "<html>"
       else FileData client_json
  else if String.eqb dir "garbled-client"
  then if String.eqb file "user.json" then FileData user_json
       else FileData "<html>"
  else if String.eqb dir "null-user"
  then if String.eqb file "user.json" then FileData "null"
       else FileData client_json
  else if String.eqb dir "null-client"
  then if String.eqb file "user.json" then FileData user_json
       else FileData "null"
  else fs dir file.

(** [JSON_parse] extended with the document [null]. *)
Definition JSON_parse_more (s : string) : result value :=
  if String.eqb s "null" then Ok VNull else JSON_parse s.

(** Options of either grant on a given credentials directory; the password
    grant with or without scopes. *)
Definition password_options_on (dir : string) (s : option (list string))
    : getAccessToken_options :=
  mkOptions dir (VStr PASSWORD_CREDENTIALS_GRANT)
    "https://auth.example.org/oauth2/access_token" SERVICES_REALM s
    VUndef VUndef.

Definition code_options_on (dir : string) : getAccessToken_options :=
  mkOptions dir (VStr AUTHORIZATION_CODE_GRANT)
    "https://auth.example.org/oauth2/access_token"
    EMPLOYEES_REALM None (VStr "c0de") (VStr "https://app.example.org/cb").

Definition reads_of (dir : string) : list event :=
  [EvReadFile dir "user.json"; EvReadFile dir "client.json"].

Definition tokeninfo_call (accessToken : string) : event :=
  EvFetch {| ob_url := "https://auth.example.org/oauth2/tokeninfo?access_token="
                       +s+ accessToken;
             ob_method := "GET";
             ob_body := None;
             ob_headers := [] |}.

End Sample.

Section OAuthTooling.

#[local] Set Default Proof Using "Type".

(** [./constants]. *)
Variable EMPLOYEES_REALM : string.
Variable AUTHORIZATION_CODE_GRANT : string.
Variable PASSWORD_CREDENTIALS_GRANT : string.

(** [./utils]: the pure helpers. [validateOAuthConfig] returns the
    exception it throws, if any; [setScopes req data] returns the request
    object after the callback ran, or what the callback threw. *)
Variable getBasicAuthHeaderValue : value -> value -> string.
Variable match_ : string -> list string -> bool.
Variable setScopes : inbound -> value -> result inbound.
Variable getHeaderValue : inbound -> string -> string.
Variable extractAccessToken : string -> option string.
Variable validateOAuthConfig : getAccessToken_options -> option value.

(** The platform: [JSON.parse], [form-urlencoded], the network behind
    [fetch], the file system behind [getFileData], and which of two failing
    file reads fails first. *)
Variable JSON_parse : string -> result value.
Variable formurlencoded : value -> string.
Variable net : outbound -> fetch_result.
Variable fs : string -> string -> file_result.
Variable second_read_fails_first : bool.

Definition fetch (r : outbound) : Async response :=
  fun w =>
    match net r with
    | Responds resp => (Fulfilled resp, log (EvFetch r) w)
    | NetworkError e => (Rejected e, log (EvFetch r) w)
    | NoAnswer => (Pending, log (EvFetch r) w)
    end.

(** [response.json()]. *)
Definition json (r : response) : Async value := of_result (resp_json r).

(** Modelled from the spec: [getFileData] of [./utils] is missing; the
    credential loader "reads two JSON documents from a directory; returns
    their raw contents" and fails "if either file is missing".  One read of
    [fileName] in [filePath], fulfilled with the contents or rejected with
    the read error. *)
Definition getFileData (filePath fileName : string) : Async string :=
  fun w =>
    match fs filePath fileName with
    | FileData s => (Fulfilled s, log (EvReadFile filePath fileName) w)
    | FileError e => (Rejected e, log (EvReadFile filePath fileName) w)
    end.

(** Modelled from the spec: the status [rejectRequest] of [./utils], which is
    missing, answers with: "the failure's HTTP status if present, else a
    default unauthorized status". *)
Definition rejection_status (status : value) : Z :=
  match status with
  | VNum n => n
  | _ => HttpStatus.UNAUTHORIZED
  end.

(** Modelled from the spec: [rejectRequest(res, status)] of [./utils] is
    missing; it "issues a rejection response with a status code" and ends the
    response. *)
Definition rejectRequest (status : value) : Async value :=
  fun w => (Fulfilled VUndef, log (EvReject (rejection_status status)) w).

(** [next()]: hands the request to the rest of the pipeline. *)
Definition next : Async value := fun w => (Fulfilled VUndef, log EvNext w).

Definition createAuthCodeRequestUri
    (authorizationEndpoint clientId redirectUri : string) : string :=
  authorizationEndpoint +s+
    "?client_id=" +s+ clientId +s+
    "&redirect_uri=" +s+ redirectUri +s+
    "&response_type=code" +s+
    "&realm=" +s+ EMPLOYEES_REALM.

Definition requestAccessToken (bodyObject : value)
    (authorizationHeaderValue accessTokenEndpoint realm : string)
    : Async value :=
  new_Promise (fun resolve reject =>
    catch_
      (response <-
         fetch {| ob_url := accessTokenEndpoint +s+ "?realm=" +s+ realm;
                  ob_method := "POST";
                  ob_body := Some (formurlencoded bodyObject);
                  ob_headers :=
                    [("Authorization", authorizationHeaderValue);
                     ("Content-Type", OAUTH_CONTENT_TYPE)] |} ;;
       let status := resp_status response in
       data <- json response ;;
       if negb (resp_status response =? HttpStatus.OK)
       then throw (VObj [("status", VNum status); ("data", data)])
       else resolve data)
      (fun err =>
         reject (VObj [("msg", VStr ("Error requesting access token from "
                                     +s+ accessTokenEndpoint));
                       ("err", err)]))).

Definition getTokenInfo (tokenInfoUrl accessToken : string) : Async value :=
  new_Promise (fun resolve reject =>
    catch_
      (response <-
         fetch {| ob_url := tokenInfoUrl +s+ "?access_token=" +s+ accessToken;
                  ob_method := "GET";
                  ob_body := None;
                  ob_headers := [] |} ;;
       let status := resp_status response in
       data <- json response ;;
       if negb (resp_status response =? HttpStatus.OK)
       then throw (VObj [("status", VNum status); ("data", data)])
       else resolve data)
      (fun err =>
         reject (VObj [("msg", VStr ("Error requesting tokeninfo from "
                                     +s+ tokenInfoUrl));
                       ("err", err)]))).

(** [options.scopes.join(' ')]. *)
Definition join_scopes (s : option (list string)) : result value :=
  match s with
  | Some l => Ok (VStr (String.concat " " l))
  | None => Throw (VErr TypeError "Cannot read property 'join' of undefined")
  end.

(** Modelled from the spec: [validateOAuthConfig] of [./utils] is missing.
    Validation "fails with a ConfigurationError" on "an unrecognized
    grantType"; the failure is "synchronous, at setup or call time", and for
    "any other grantType value" it is "a TypeError-class error". *)
Definition rejects_unrecognized_grantType : Prop :=
  forall options : getAccessToken_options,
    grantType options <> VStr PASSWORD_CREDENTIALS_GRANT ->
    grantType options <> VStr AUTHORIZATION_CODE_GRANT ->
    exists e, validateOAuthConfig options = Some e /\ is_TypeError e.

(** The object literal [bodyParameters] of [getAccessToken], or the
    [TypeError] of its last branch. *)
Definition bodyParameters_of (options : getAccessToken_options)
    (userData : value) : Async value :=
  if strict_eq_str (grantType options) PASSWORD_CREDENTIALS_GRANT
  then
    username <- of_result (get_prop userData "application_username") ;;
    password <- of_result (get_prop userData "application_password") ;;
    scope <- of_result (join_scopes (opt_scopes options)) ;;
    ret (VObj [("grant_type", grantType options);
               ("username", username);
               ("password", password);
               ("scope", scope)])
  else if strict_eq_str (grantType options) AUTHORIZATION_CODE_GRANT
  then
    ret (VObj [("grant_type", grantType options);
               ("code", code options);
               ("redirect_uri", redirectUri options)])
  else throw (VErr TypeError "invalid grantType").

(** The callback [(credentials) => { ... }] of [getAccessToken]. *)
Definition getAccessToken_then (options : getAccessToken_options)
    (credentials : string * string) : Async value :=
  userData <- of_result (JSON_parse (fst credentials)) ;;
  clientData <- of_result (JSON_parse (snd credentials)) ;;
  bodyParameters <- bodyParameters_of options userData ;;
  client_id <- of_result (get_prop clientData "client_id") ;;
  client_secret <- of_result (get_prop clientData "client_secret") ;;
  let authorizationHeaderValue :=
    getBasicAuthHeaderValue client_id client_secret in
  requestAccessToken bodyParameters authorizationHeaderValue
    (accessTokenEndpoint options) (realm options).

Definition getAccessToken (options : getAccessToken_options)
    : world -> completion * world :=
  fun w =>
    match validateOAuthConfig options with
    | Some e => (Threw e, w)
    | None =>
        let '(p, w') :=
          (credentials <-
             Promise_all2 second_read_fails_first
               (getFileData (credentialsDir options) USER_JSON)
               (getFileData (credentialsDir options) CLIENT_JSON) ;;
           getAccessToken_then options credentials) w in
        (Returned p, w')
    end.

(** The callback [setScopes(req)]: mutates the shared request object. *)
Definition setScopes_callback (data : value) : Async value :=
  fun w =>
    match setScopes (req w) data with
    | Ok r => (Fulfilled VUndef, set_req r w)
    | Throw e => (Rejected e, w)
    end.

(** The middleware returned by [requireScopesMiddleware(scopes)], as the
    change it makes to the world.  Both sets are fresh [Set] objects; the loop
    deletes from [scopesCopy] only. *)
Definition requireScopesMiddleware (scopes : option (list string))
    : world -> world :=
  fun w =>
    let userScopes : gset string := list_to_set (or_empty (req_scopes (req w))) in
    let scopesCopy : gset string := list_to_set (or_empty scopes) in
    let scopesCopy :=
      foldl (fun acc scope => acc ∖ {[scope]}) scopesCopy (elements userScopes) in
    if bool_decide (size scopesCopy = 0%nat)
    then snd (next w)
    else snd (rejectRequest (VNum HttpStatus.FORBIDDEN) w).

(** The chain hung on the promise [p] of [getTokenInfo]:
    [p.then(setScopes(req)).then(() => { next(); })
      .catch((err) => { rejectRequest(res, err.status); })]. *)
Definition validation_chain (p : Async value) : Async value :=
  catch_
    (data <- p ;;
     _ <- setScopes_callback data ;;
     next)
    (fun err =>
       status <- of_result (get_prop err "status") ;;
       rejectRequest status).

(** [options.publicEndpoints && match(req.originalUrl, options.publicEndpoints)]. *)
Definition is_public (options : middleware_options) (r : inbound) : bool :=
  match publicEndpoints options with
  | Some patterns => match_ (originalUrl r) patterns
  | None => false
  end.

(** [handleOAuthRequestMiddleware(options)] throws at construction or returns
    the middleware; the middleware is given as the change it makes to the
    world once its promise chain has run. *)
Definition handleOAuthRequestMiddleware (options : middleware_options)
    : result (world -> world) :=
  if negb (truthy (tokenInfoEndpoint options))
  then Throw (VErr TypeError "tokenInfoEndpoint must be defined")
  else Ok (fun w =>
    if is_public options (req w)
    then snd (next w)
    else
      let header := getHeaderValue (req w) AUTHORIZATION_HEADER_FIELD_NAME in
      let accessToken := extractAccessToken header in
      let w := log (EvExtractToken header) w in
      if negb (truthy accessToken)
      then snd (rejectRequest VUndef w)
      else
        snd (validation_chain
               (getTokenInfo (default "" (tokenInfoEndpoint options))
                             (default "" accessToken))
               w)).

(** ** How the two exchanges settle *)

(** The rejection value built by the [catch] handlers: [{ msg, err }]. *)
Definition wrapped (msg : string) (err : value) : value :=
  VObj [("msg", VStr msg); ("err", err)].

(** The object thrown on a status other than 200: [{ status, data }]. *)
Definition upstream (status : Z) (data : value) : value :=
  VObj [("status", VNum status); ("data", data)].

(** What the caught error is when the endpoint answered [r] with a status
    other than 200. *)
Definition caught (r : response) : value :=
  match resp_json r with
  | Ok data => upstream (resp_status r) data
  | Throw e => e
  end.

Definition token_request (bodyObject : value)
    (authorizationHeaderValue accessTokenEndpoint realm : string) : outbound :=
  {| ob_url := accessTokenEndpoint +s+ "?realm=" +s+ realm;
     ob_method := "POST";
     ob_body := Some (formurlencoded bodyObject);
     ob_headers := [("Authorization", authorizationHeaderValue);
                    ("Content-Type", OAUTH_CONTENT_TYPE)] |}.

Definition tokeninfo_request (tokenInfoUrl accessToken : string) : outbound :=
  {| ob_url := tokenInfoUrl +s+ "?access_token=" +s+ accessToken;
     ob_method := "GET";
     ob_body := None;
     ob_headers := [] |}.

Definition exchange (msg : string) (r : fetch_result) : outcome value :=
  match r with
  | NetworkError e => Rejected (wrapped msg e)
  | NoAnswer => Pending
  | Responds resp =>
      match resp_json resp with
      | Throw e => Rejected (wrapped msg e)
      | Ok data =>
          if resp_status resp =? HttpStatus.OK
          then Fulfilled data
          else Rejected (wrapped msg (upstream (resp_status resp) data))
      end
  end.

Definition nullish (v : value) : bool :=
  match v with
  | VUndef | VNull => true
  | _ => false
  end.

(** [v.k] where it cannot throw. *)
Definition prop (v : value) (k : string) : value :=
  match v with
  | VObj fields => assoc k fields
  | _ => VUndef
  end.

Lemma world_eta (w : world) : mkWorld (trace w) (req w) (settled w) = w.
Proof. by destruct w. Qed.

Ltac run_exchange :=
  repeat match goal with
         | |- context [net ?r] => destruct (net r) as [[? [?|?]]|?|]; simpl
         | |- context [?a =? ?b] => destruct (a =? b); simpl
         end.

Lemma requestAccessToken_run bodyObject auth endpoint realm w :
  requestAccessToken bodyObject auth endpoint realm w =
  (exchange ("Error requesting access token from " +s+ endpoint)
            (net (token_request bodyObject auth endpoint realm)),
   log (EvFetch (token_request bodyObject auth endpoint realm)) w).
Proof.
  unfold requestAccessToken, new_Promise, catch_, then_, fetch, json,
    of_result, settle, throw, ret, exchange, token_request.
  destruct w as [t r s]; simpl.
  run_exchange; reflexivity.
Qed.

Lemma getTokenInfo_run tokenInfoUrl accessToken w :
  getTokenInfo tokenInfoUrl accessToken w =
  (exchange ("Error requesting tokeninfo from " +s+ tokenInfoUrl)
            (net (tokeninfo_request tokenInfoUrl accessToken)),
   log (EvFetch (tokeninfo_request tokenInfoUrl accessToken)) w).
Proof.
  unfold getTokenInfo, new_Promise, catch_, then_, fetch, json,
    of_result, settle, throw, ret, exchange, tokeninfo_request.
  destruct w as [t r s]; simpl.
  run_exchange; reflexivity.
Qed.

(** The exchange is pending exactly when the endpoint never answers. *)
Lemma exchange_pending msg r : exchange msg r = Pending <-> r = NoAnswer.
Proof.
  destruct r as [[st [d|e]]|e|]; simpl; try done.
  destruct (st =? HttpStatus.OK); done.
Qed.

(** ** The authorization-code request URI *)

Lemma append_assoc (a b c : string) : a +s+ b +s+ c = a +s+ (b +s+ c).
Proof.
  induction a as [|x a IH]; [done |].
  change (String x (a +s+ b +s+ c) = String x (a +s+ (b +s+ c))).
  by rewrite IH.
Qed.

(** C10: [createAuthCodeRequestUri] is the concatenation of the endpoint, the
    three query parameters built from its arguments, and [&realm=] followed
    by the employees realm constant; whatever the arguments are, the result
    ends with [&realm=EMPLOYEES_REALM]. *)
Theorem createAuthCodeRequestUri_concat
    (authorizationEndpoint clientId redirectUri : string) :
  createAuthCodeRequestUri authorizationEndpoint clientId redirectUri =
    authorizationEndpoint +s+ ("?client_id=" +s+ (clientId +s+
      ("&redirect_uri=" +s+ (redirectUri +s+
        ("&response_type=code" +s+ ("&realm=" +s+ EMPLOYEES_REALM)))))) /\
  exists front : string,
    createAuthCodeRequestUri authorizationEndpoint clientId redirectUri =
      front +s+ ("&realm=" +s+ EMPLOYEES_REALM).
Proof.
  unfold createAuthCodeRequestUri. split.
  - by rewrite !append_assoc.
  - eexists. rewrite (append_assoc _ "&realm=" EMPLOYEES_REALM). reflexivity.
Qed.

(** ** Token exchange and introspection: status handling *)

(** C1 (as amended): when the endpoint answers with a status other than 200,
    [requestAccessToken] and [getTokenInfo] reject, and the rejection value is
    the object [{ msg, err }] built by their [catch] handler: [msg] names the
    endpoint and [err] is [{ status, data }] when the error body parsed to
    [data] (and the parse failure when it did not). *)
Theorem non_ok_status_rejects_wrapped :
  (forall (bodyObject : value) (auth endpoint realm : string) (w : world)
          (r : response),
     net (token_request bodyObject auth endpoint realm) = Responds r ->
     resp_status r <> HttpStatus.OK ->
     fst (requestAccessToken bodyObject auth endpoint realm w) =
       Rejected (wrapped ("Error requesting access token from " +s+ endpoint)
                         (caught r))) /\
  (forall (tokenInfoUrl accessToken : string) (w : world) (r : response),
     net (tokeninfo_request tokenInfoUrl accessToken) = Responds r ->
     resp_status r <> HttpStatus.OK ->
     fst (getTokenInfo tokenInfoUrl accessToken w) =
       Rejected (wrapped ("Error requesting tokeninfo from " +s+ tokenInfoUrl)
                         (caught r))).
Proof.
  split.
  - intros bodyObject auth endpoint realm w r H S.
    rewrite requestAccessToken_run; simpl.
    rewrite H. unfold exchange, caught.
    apply Z.eqb_neq in S. rewrite S.
    by destruct (resp_json r).
  - intros tokenInfoUrl accessToken w r H S.
    rewrite getTokenInfo_run; simpl.
    rewrite H. unfold exchange, caught.
    apply Z.eqb_neq in S. rewrite S.
    by destruct (resp_json r).
Qed.

(** C4: when the endpoint answers with status 200 and a JSON body,
    [requestAccessToken] and [getTokenInfo] resolve with exactly the parsed
    body. *)
Theorem ok_status_resolves_with_body :
  (forall (bodyObject : value) (auth endpoint realm : string) (w : world)
          (r : response) (data : value),
     net (token_request bodyObject auth endpoint realm) = Responds r ->
     resp_status r = HttpStatus.OK ->
     resp_json r = Ok data ->
     fst (requestAccessToken bodyObject auth endpoint realm w) =
       Fulfilled data) /\
  (forall (tokenInfoUrl accessToken : string) (w : world) (r : response)
          (data : value),
     net (tokeninfo_request tokenInfoUrl accessToken) = Responds r ->
     resp_status r = HttpStatus.OK ->
     resp_json r = Ok data ->
     fst (getTokenInfo tokenInfoUrl accessToken w) = Fulfilled data).
Proof.
  split.
  - intros bodyObject auth endpoint realm w r data H S J.
    rewrite requestAccessToken_run; simpl.
    rewrite H. unfold exchange. by rewrite J, S.
  - intros tokenInfoUrl accessToken w r data H S J.
    rewrite getTokenInfo_run; simpl.
    rewrite H. unfold exchange. by rewrite J, S.
Qed.

(** ** Token acquisition *)

Lemma strict_eq_str_true v s : strict_eq_str v s = true <-> v = VStr s.
Proof.
  destruct v; simpl; try (split; [discriminate | congruence]).
  rewrite String.eqb_eq. split; congruence.
Qed.

Lemma strict_eq_str_false v s : v <> VStr s -> strict_eq_str v s = false.
Proof.
  intros H. destruct (strict_eq_str v s) eqn:E; [|done].
  by apply strict_eq_str_true in E.
Qed.

Lemma get_prop_Ok v k : nullish v = false -> get_prop v k = Ok (prop v k).
Proof. by destruct v. Qed.

Lemma trace_log e w : trace (log e w) = trace w ++ [e].
Proof. done. Qed.

(** Once validation passed and both credential files were read, the callback
    runs after the two reads. *)
Lemma getAccessToken_loaded options w u c :
  validateOAuthConfig options = None ->
  fs (credentialsDir options) USER_JSON = FileData u ->
  fs (credentialsDir options) CLIENT_JSON = FileData c ->
  getAccessToken options w =
    (Returned (fst (getAccessToken_then options (u, c)
                 (log (EvReadFile (credentialsDir options) CLIENT_JSON)
                    (log (EvReadFile (credentialsDir options) USER_JSON) w)))),
     snd (getAccessToken_then options (u, c)
            (log (EvReadFile (credentialsDir options) CLIENT_JSON)
               (log (EvReadFile (credentialsDir options) USER_JSON) w)))).
Proof.
  intros Hv Hu Hc. unfold getAccessToken, then_, Promise_all2, getFileData.
  rewrite Hv, Hu, Hc.
  by destruct (getAccessToken_then _ _ _).
Qed.

(** With an unrecognized grant type the body of the callback fails before
    [requestAccessToken] is reached. *)
Lemma getAccessToken_then_unrecognized options credentials w :
  grantType options <> VStr PASSWORD_CREDENTIALS_GRANT ->
  grantType options <> VStr AUTHORIZATION_CODE_GRANT ->
  snd (getAccessToken_then options credentials w) = w /\
  exists e, fst (getAccessToken_then options credentials w) = Rejected e /\
    (forall userData clientData,
       JSON_parse (fst credentials) = Ok userData ->
       JSON_parse (snd credentials) = Ok clientData ->
       e = VErr TypeError "invalid grantType").
Proof.
  intros Hp Ha.
  unfold getAccessToken_then, bodyParameters_of, then_, of_result, throw, ret.
  rewrite (strict_eq_str_false _ _ Hp), (strict_eq_str_false _ _ Ha).
  destruct (JSON_parse (fst credentials)) as [ud|e1]; simpl.
  - destruct (JSON_parse (snd credentials)) as [cd|e2]; simpl.
    + split; [done|]. eexists; split; [done|]. done.
    + split; [done|]. eexists; split; [done|]. intros ? ? _ [=].
  - split; [done|]. eexists; split; [done|]. intros ? ? [=].
Qed.

(** Whatever [validateOAuthConfig] does: when [grantType] is neither of the
    two grants, [getAccessToken] issues no outbound call and never resolves:
    it throws what validation throws, or returns a promise that rejects.
    Were validation to pass, with both credential files read and parsed, the
    last branch of the callback rejects with [TypeError('invalid
    grantType')]. *)
Lemma unrecognized_grantType_fails_without_request
    (options : getAccessToken_options) (w : world) :
  grantType options <> VStr PASSWORD_CREDENTIALS_GRANT ->
  grantType options <> VStr AUTHORIZATION_CODE_GRANT ->
  (forall r, EvFetch r ∈ trace (snd (getAccessToken options w)) ->
             EvFetch r ∈ trace w) /\
  (exists e, fst (getAccessToken options w) = Threw e \/
             fst (getAccessToken options w) = Returned (Rejected e)) /\
  (forall u c userData clientData,
     validateOAuthConfig options = None ->
     fs (credentialsDir options) USER_JSON = FileData u ->
     fs (credentialsDir options) CLIENT_JSON = FileData c ->
     JSON_parse u = Ok userData ->
     JSON_parse c = Ok clientData ->
     fst (getAccessToken options w) =
       Returned (Rejected (VErr TypeError "invalid grantType"))).
Proof.
  intros Hp Ha.
  assert (Hreads : forall r d f g t,
            EvFetch r ∈ (t ++ [EvReadFile d f]) ++ [EvReadFile d g] ->
            EvFetch r ∈ t).
  { intros r d f g t. rewrite !elem_of_app, !list_elem_of_singleton.
    intros [[?|?]|?]; [done | discriminate..]. }
  split; [|split].
  - intros r. unfold getAccessToken.
    destruct (validateOAuthConfig options); [done|].
    unfold then_, Promise_all2, getFileData.
    destruct (fs _ USER_JSON) as [u|e1], (fs _ CLIENT_JSON) as [c|e2]; simpl;
      try apply Hreads.
    destruct (getAccessToken_then_unrecognized options (u, c)
                (log (EvReadFile (credentialsDir options) CLIENT_JSON)
                   (log (EvReadFile (credentialsDir options) USER_JSON) w))
                Hp Ha) as [Hw _].
    destruct (getAccessToken_then _ _ _) as [p w']; simpl in *; subst w'.
    apply Hreads.
  - unfold getAccessToken.
    destruct (validateOAuthConfig options) as [e|]; [by exists e; left|].
    unfold then_, Promise_all2, getFileData.
    destruct (fs _ USER_JSON) as [u|e1], (fs _ CLIENT_JSON) as [c|e2]; simpl;
      try (eexists; right; reflexivity).
    destruct (getAccessToken_then_unrecognized options (u, c)
                (log (EvReadFile (credentialsDir options) CLIENT_JSON)
                   (log (EvReadFile (credentialsDir options) USER_JSON) w))
                Hp Ha) as (_ & e & He & _).
    destruct (getAccessToken_then _ _ _) as [p w']; simpl in *; subst p.
    by exists e; right.
  - intros u c userData clientData Hv Hu Hc Ju Jc.
    rewrite (getAccessToken_loaded _ _ _ _ Hv Hu Hc); simpl.
    destruct (getAccessToken_then_unrecognized options (u, c)
                (log (EvReadFile (credentialsDir options) CLIENT_JSON)
                   (log (EvReadFile (credentialsDir options) USER_JSON) w))
                Hp Ha) as (_ & e & He & Hty).
    rewrite He. by rewrite (Hty userData clientData Ju Jc).
Qed.

(** C2: when [grantType] is neither of the two grants, [getAccessToken]
    fails at once with a [TypeError]-class error, before any outbound call:
    validation, which fails on an unrecognized grant type, throws
    synchronously, and nothing has been read or sent.  The code of
    [getAccessToken] itself, whatever validation does, issues no outbound call
    for such options and never resolves, and its last branch rejects with
    [TypeError('invalid grantType')] once the credentials are loaded. *)
Theorem unrecognized_grantType_fails_at_once
    (options : getAccessToken_options) (w : world) :
  grantType options <> VStr PASSWORD_CREDENTIALS_GRANT ->
  grantType options <> VStr AUTHORIZATION_CODE_GRANT ->
  (rejects_unrecognized_grantType ->
   exists e, getAccessToken options w = (Threw e, w) /\ is_TypeError e) /\
  (forall r, EvFetch r ∈ trace (snd (getAccessToken options w)) ->
             EvFetch r ∈ trace w) /\
  (forall v, fst (getAccessToken options w) <> Returned (Fulfilled v)) /\
  (forall u c userData clientData,
     validateOAuthConfig options = None ->
     fs (credentialsDir options) "user.json" = FileData u ->
     fs (credentialsDir options) "client.json" = FileData c ->
     JSON_parse u = Ok userData ->
     JSON_parse c = Ok clientData ->
     fst (getAccessToken options w) =
       Returned (Rejected (VErr TypeError "invalid grantType"))).
Proof.
  intros Hp Ha.
  destruct (unrecognized_grantType_fails_without_request options w Hp Ha)
    as (Hno & [e He] & Hty).
  split; [|split; [|split]].
  - intros Hval. destruct (Hval options Hp Ha) as (e' & Hv & Hte).
    exists e'. split; [|done]. unfold getAccessToken. by rewrite Hv.
  - exact Hno.
  - intros v Hv. destruct He as [He|He]; rewrite He in Hv; discriminate.
  - exact Hty.
Qed.

(** C5: with options that pass validation, credential files that are read
    and parsed, and a recognized grant type, [getAccessToken] issues exactly
    one outbound call, after the two file reads: a POST to
    [accessTokenEndpoint?realm=realm] with the form-url-encoded grant body,
    the Basic authorization header built from the client credentials, and the
    form content type. *)
Theorem getAccessToken_issues_one_post
    (options : getAccessToken_options) (w : world)
    (u c : string) (userData clientData : value) :
  validateOAuthConfig options = None ->
  fs (credentialsDir options) USER_JSON = FileData u ->
  fs (credentialsDir options) CLIENT_JSON = FileData c ->
  JSON_parse u = Ok userData ->
  JSON_parse c = Ok clientData ->
  nullish clientData = false ->
  let post (bodyParameters : value) :=
    EvFetch
      {| ob_url := accessTokenEndpoint options +s+ "?realm=" +s+ realm options;
         ob_method := "POST";
         ob_body := Some (formurlencoded bodyParameters);
         ob_headers :=
           [("Authorization",
             getBasicAuthHeaderValue (prop clientData "client_id")
                                     (prop clientData "client_secret"));
            ("Content-Type", "application/x-www-form-urlencoded")] |} in
  let reads := [EvReadFile (credentialsDir options) "user.json";
                EvReadFile (credentialsDir options) "client.json"] in
  (forall l,
     grantType options = VStr PASSWORD_CREDENTIALS_GRANT ->
     nullish userData = false ->
     opt_scopes options = Some l ->
     trace (snd (getAccessToken options w)) =
       trace w ++ reads ++
       [post (VObj [("grant_type", VStr PASSWORD_CREDENTIALS_GRANT);
                    ("username", prop userData "application_username");
                    ("password", prop userData "application_password");
                    ("scope", VStr (String.concat " " l))])]) /\
  (grantType options = VStr AUTHORIZATION_CODE_GRANT ->
   AUTHORIZATION_CODE_GRANT <> PASSWORD_CREDENTIALS_GRANT ->
   trace (snd (getAccessToken options w)) =
     trace w ++ reads ++
     [post (VObj [("grant_type", VStr AUTHORIZATION_CODE_GRANT);
                  ("code", code options);
                  ("redirect_uri", redirectUri options)])]).
Proof.
  intros Hv Hu Hc Ju Jc Ncd post reads.
  rewrite (getAccessToken_loaded _ _ _ _ Hv Hu Hc); simpl.
  unfold getAccessToken_then, bodyParameters_of, then_, of_result; simpl.
  rewrite Ju, Jc; simpl.
  split.
  - intros l Hg Nud Hs.
    rewrite Hg, Hs, !(get_prop_Ok userData), !(get_prop_Ok clientData) by done.
    simpl. rewrite String.eqb_refl; simpl.
    rewrite requestAccessToken_run; simpl.
    by rewrite <- !app_assoc.
  - intros Hg Hne.
    rewrite Hg, !(get_prop_Ok clientData) by done. simpl.
    rewrite (proj2 (String.eqb_neq _ _) Hne), String.eqb_refl; simpl.
    rewrite requestAccessToken_run; simpl.
    by rewrite <- !app_assoc.
Qed.

(** The promise returned by [getAccessToken] settles as the token exchange
    does: the outcome of [requestAccessToken] passes through unchanged. *)
Lemma getAccessToken_outcome options w u c userData clientData bodyParameters :
  validateOAuthConfig options = None ->
  fs (credentialsDir options) USER_JSON = FileData u ->
  fs (credentialsDir options) CLIENT_JSON = FileData c ->
  JSON_parse u = Ok userData ->
  JSON_parse c = Ok clientData ->
  nullish clientData = false ->
  (forall w', bodyParameters_of options userData w' = (Fulfilled bodyParameters, w')) ->
  fst (getAccessToken options w) =
    Returned
      (exchange ("Error requesting access token from " +s+ accessTokenEndpoint options)
         (net (token_request bodyParameters
                 (getBasicAuthHeaderValue (prop clientData "client_id")
                                          (prop clientData "client_secret"))
                 (accessTokenEndpoint options) (realm options)))).
Proof.
  intros Hv Hu Hc Ju Jc Ncd Hb.
  rewrite (getAccessToken_loaded _ _ _ _ Hv Hu Hc); simpl.
  unfold getAccessToken_then, then_, of_result; simpl.
  rewrite Ju, Jc; simpl. rewrite Hb.
  rewrite !(get_prop_Ok clientData) by done. simpl.
  by rewrite requestAccessToken_run.
Qed.

(** ** Scope enforcement *)

Lemma foldl_delete (l : list string) (X : gset string) :
  foldl (fun acc scope => acc ∖ {[scope]}) X l = X ∖ list_to_set l.
Proof.
  revert X. induction l as [|x l IH]; intros X; simpl.
  - by rewrite difference_empty_L.
  - by rewrite IH, difference_difference_l_L.
Qed.

Lemma remaining_empty_iff (required granted : list string) :
  size (foldl (fun acc scope => acc ∖ {[scope]})
          (list_to_set required : gset string)
          (elements (list_to_set granted : gset string))) = 0%nat <->
  required ⊆ granted.
Proof.
  rewrite foldl_delete, list_to_set_elements_L, size_empty_iff.
  split.
  - intros H x Hx. destruct (decide (x ∈ granted)) as [|Hn]; [done|].
    assert (x ∈ (list_to_set required ∖ list_to_set granted : gset string))
      as Hin.
    { apply elem_of_difference. by rewrite !elem_of_list_to_set. }
    rewrite H in Hin. by apply not_elem_of_empty in Hin.
  - intros H. apply set_equiv. intros x.
    rewrite elem_of_difference, !elem_of_list_to_set.
    split; [|by intros ?%not_elem_of_empty].
    intros [Hx Hn]. destruct Hn. by apply H.
Qed.

Lemma requireScopesMiddleware_run scopes w :
  requireScopesMiddleware scopes w =
    if bool_decide (or_empty scopes ⊆ or_empty (req_scopes (req w)))
    then log EvNext w
    else log (EvReject HttpStatus.FORBIDDEN) w.
Proof.
  unfold requireScopesMiddleware.
  rewrite (bool_decide_ext _ _ (remaining_empty_iff _ _)).
  by destruct (bool_decide _).
Qed.

Lemma log_inj e1 e2 w : log e1 w = log e2 w -> e1 = e2.
Proof.
  intros H. apply (f_equal trace) in H. simpl in H.
  apply app_inv_head in H. congruence.
Qed.

(** C3: the middleware of [requireScopesMiddleware] calls [next()] exactly
    when every required scope is among the scopes attached to the request (an
    absent [req.scopes] counting as none), and otherwise rejects the request
    with 403 Forbidden. *)
Theorem requireScopes_next_iff_contained
    (scopes : option (list string)) (w : world) :
  (requireScopesMiddleware scopes w = log EvNext w <->
   or_empty scopes ⊆ or_empty (req_scopes (req w))) /\
  (requireScopesMiddleware scopes w = log (EvReject 403) w <->
   ~ or_empty scopes ⊆ or_empty (req_scopes (req w))).
Proof.
  rewrite requireScopesMiddleware_run.
  destruct (bool_decide_reflect
              (or_empty scopes ⊆ or_empty (req_scopes (req w)))) as [H|H].
  - split; split; try done.
    intros E. by apply log_inj in E.
  - split; split; try done.
    intros E. by apply log_inj in E.
Qed.

(** C9: running the middleware of [requireScopesMiddleware] leaves the
    request object, and with it [req.scopes], as it was. *)
Theorem requireScopes_leaves_request_scopes
    (scopes : option (list string)) (w : world) :
  req (requireScopesMiddleware scopes w) = req w /\
  req_scopes (req (requireScopesMiddleware scopes w)) = req_scopes (req w).
Proof.
  rewrite requireScopesMiddleware_run.
  by destruct (bool_decide _).
Qed.

(** ** The request middleware *)

Lemma handleOAuthRequestMiddleware_Ok options mw :
  handleOAuthRequestMiddleware options = Ok mw ->
  exists endpoint, tokenInfoEndpoint options = Some endpoint /\ endpoint <> "".
Proof.
  unfold handleOAuthRequestMiddleware.
  destruct (tokenInfoEndpoint options) as [endpoint|]; simpl; [|done].
  destruct (String.eqb_spec endpoint ""); simpl; [done|].
  intros _. by exists endpoint.
Qed.

Lemma truthy_Some tok : tok <> "" -> truthy (Some tok) = true.
Proof. intros H. simpl. by destruct (String.eqb_spec tok ""). Qed.

(** C7: on a request whose path matches the configured public patterns the
    middleware of [handleOAuthRequestMiddleware] calls [next()] and does
    nothing else: no token is extracted, no outbound call is made, nothing is
    rejected, whatever the headers of the request are. *)
Theorem public_endpoint_continues
    (options : middleware_options) (mw : world -> world)
    (patterns : list string) (w : world) :
  handleOAuthRequestMiddleware options = Ok mw ->
  publicEndpoints options = Some patterns ->
  match_ (originalUrl (req w)) patterns = true ->
  mw w = log EvNext w /\ trace (mw w) = trace w ++ [EvNext].
Proof.
  unfold handleOAuthRequestMiddleware, is_public. intros Hmw Hp Hm.
  destruct (negb (truthy (tokenInfoEndpoint options))); [done|].
  injection Hmw as <-. by rewrite Hp, Hm.
Qed.

(** C8: on a request that is not public and from whose authorization header
    no token is extracted, the middleware of [handleOAuthRequestMiddleware]
    rejects with 401 Unauthorized right after the extraction: no outbound
    call is made and [next()] is not called. *)
Theorem missing_token_rejected_unauthorized
    (options : middleware_options) (mw : world -> world) (w : world) :
  handleOAuthRequestMiddleware options = Ok mw ->
  is_public options (req w) = false ->
  truthy (extractAccessToken
            (getHeaderValue (req w) "authorization")) = false ->
  mw w = log (EvReject 401)
           (log (EvExtractToken (getHeaderValue (req w) "authorization")) w) /\
  trace (mw w) =
    trace w ++ [EvExtractToken (getHeaderValue (req w) "authorization");
                EvReject 401].
Proof.
  unfold handleOAuthRequestMiddleware. intros Hmw Hp Ht.
  destruct (negb (truthy (tokenInfoEndpoint options))); [done|].
  injection Hmw as <-. rewrite Hp. simpl.
  unfold AUTHORIZATION_HEADER_FIELD_NAME. rewrite Ht. simpl.
  split; [done|]. by rewrite <- app_assoc.
Qed.

(** A rejection of either exchange is a [{ msg, err }] object. *)
Lemma exchange_rejected msg r e :
  exchange msg r = Rejected e -> exists err, e = wrapped msg err.
Proof.
  unfold exchange. destruct r as [[st [d|pe]]|ne|]; simpl.
  - destruct (st =? HttpStatus.OK); [done|]. intros [= <-]. by eexists.
  - intros [= <-]. by eexists.
  - intros [= <-]. by eexists.
  - done.
Qed.

(** The [catch] handler of the chain answers with the [status] of whatever
    object the promise was rejected with, and with 401 when it has none. *)
Lemma validation_chain_rejected (p : Async value) w e :
  fst (p w) = Rejected e ->
  nullish e = false ->
  validation_chain p w =
    (Fulfilled VUndef,
     log (EvReject (rejection_status (prop e "status"))) (snd (p w))).
Proof.
  intros Hp Hn. unfold validation_chain, catch_, then_.
  destruct (p w) as [o w']. simpl in Hp. subst o. simpl.
  by rewrite (get_prop_Ok _ _ Hn).
Qed.

(** The middleware on a request that carries a token, when the introspection
    exchange is rejected. *)
Lemma token_path_failure options mw w endpoint token e :
  handleOAuthRequestMiddleware options = Ok mw ->
  tokenInfoEndpoint options = Some endpoint ->
  is_public options (req w) = false ->
  extractAccessToken (getHeaderValue (req w) "authorization") = Some token ->
  token <> "" ->
  exchange ("Error requesting tokeninfo from " +s+ endpoint)
           (net (tokeninfo_request endpoint token)) = Rejected e ->
  mw w =
    log (EvReject (rejection_status (prop e "status")))
      (log (EvFetch (tokeninfo_request endpoint token))
         (log (EvExtractToken (getHeaderValue (req w) "authorization")) w)).
Proof.
  unfold handleOAuthRequestMiddleware. intros Hmw He Hp Ht Hne Hrej.
  destruct (negb (truthy (tokenInfoEndpoint options))); [done|].
  injection Hmw as <-. rewrite Hp. simpl.
  unfold AUTHORIZATION_HEADER_FIELD_NAME. rewrite Ht, He, (truthy_Some _ Hne).
  simpl. destruct (exchange_rejected _ _ _ Hrej) as [err ->].
  rewrite (validation_chain_rejected _ _
             (wrapped ("Error requesting tokeninfo from " +s+ endpoint) err)).
  - by rewrite getTokenInfo_run.
  - by rewrite getTokenInfo_run.
  - done.
Qed.

(** C6: on a request that is not public and carries a token, when the
    introspection endpoint answers with a status other than 200 and a JSON
    body, the HTTP status of the failure is on the rejection value of
    [getTokenInfo], under [err]; the [catch] handler of the middleware reads
    [err.status] of the rejection value itself, which is [undefined], and the
    request is rejected with 401 whatever the status of the failure was. *)
Theorem introspection_status_is_lost
    (options : middleware_options) (mw : world -> world) (w : world)
    (endpoint token : string) (r : response) (data : value) :
  handleOAuthRequestMiddleware options = Ok mw ->
  tokenInfoEndpoint options = Some endpoint ->
  is_public options (req w) = false ->
  extractAccessToken (getHeaderValue (req w) "authorization") = Some token ->
  token <> "" ->
  net (tokeninfo_request endpoint token) = Responds r ->
  resp_status r <> HttpStatus.OK ->
  resp_json r = Ok data ->
  exists e err,
    fst (getTokenInfo endpoint token
           (log (EvExtractToken (getHeaderValue (req w) "authorization")) w)) =
      Rejected e /\
    get_prop e "err" = Ok err /\
    get_prop err "status" = Ok (VNum (resp_status r)) /\
    get_prop e "status" = Ok VUndef /\
    trace (mw w) =
      trace w ++ [EvExtractToken (getHeaderValue (req w) "authorization");
                  EvFetch (tokeninfo_request endpoint token);
                  EvReject 401].
Proof.
  intros Hmw He Hp Ht Hne Hnet Hst Hj.
  assert (exchange ("Error requesting tokeninfo from " +s+ endpoint)
            (net (tokeninfo_request endpoint token)) =
          Rejected (wrapped ("Error requesting tokeninfo from " +s+ endpoint)
                      (upstream (resp_status r) data))) as Hx.
  { rewrite Hnet. unfold exchange. rewrite Hj.
    apply Z.eqb_neq in Hst. by rewrite Hst. }
  exists (wrapped ("Error requesting tokeninfo from " +s+ endpoint)
            (upstream (resp_status r) data)),
         (upstream (resp_status r) data).
  rewrite getTokenInfo_run; simpl. rewrite Hx.
  repeat split; try done.
  rewrite (token_path_failure _ _ _ _ _ _ Hmw He Hp Ht Hne Hx).
  simpl. by rewrite <- !app_assoc.
Qed.

(** Every rejection of [getTokenInfo] is a [{ msg, err }] object, which has no
    [status] of its own: after a failed introspection the middleware always
    answers 401, also when the endpoint answered with another status. *)
Lemma introspection_failure_status options mw w endpoint token e :
  handleOAuthRequestMiddleware options = Ok mw ->
  tokenInfoEndpoint options = Some endpoint ->
  is_public options (req w) = false ->
  extractAccessToken (getHeaderValue (req w) "authorization") = Some token ->
  token <> "" ->
  fst (getTokenInfo endpoint token
         (log (EvExtractToken (getHeaderValue (req w) "authorization")) w)) =
    Rejected e ->
  prop e "status" = VUndef /\
  trace (mw w) =
    trace w ++ [EvExtractToken (getHeaderValue (req w) "authorization");
                EvFetch (tokeninfo_request endpoint token);
                EvReject 401].
Proof.
  intros Hmw He Hp Ht Hne Hrej.
  rewrite getTokenInfo_run in Hrej. simpl in Hrej.
  rewrite (token_path_failure _ _ _ _ _ _ Hmw He Hp Ht Hne Hrej).
  destruct (exchange_rejected _ _ _ Hrej) as [err ->].
  split; [done|]. simpl. by rewrite <- !app_assoc.
Qed.

(** On a successful introspection the scopes are attached and the pipeline
    continues. *)
Lemma introspection_success_continues options mw w endpoint token data r' :
  handleOAuthRequestMiddleware options = Ok mw ->
  tokenInfoEndpoint options = Some endpoint ->
  is_public options (req w) = false ->
  extractAccessToken (getHeaderValue (req w) "authorization") = Some token ->
  token <> "" ->
  fst (getTokenInfo endpoint token
         (log (EvExtractToken (getHeaderValue (req w) "authorization")) w)) =
    Fulfilled data ->
  setScopes (req w) data = Ok r' ->
  trace (mw w) =
    trace w ++ [EvExtractToken (getHeaderValue (req w) "authorization");
                EvFetch (tokeninfo_request endpoint token);
                EvNext] /\
  req (mw w) = r'.
Proof.
  unfold handleOAuthRequestMiddleware. intros Hmw He Hp Ht Hne Hok Hset.
  destruct (negb (truthy (tokenInfoEndpoint options))); [done|].
  injection Hmw as <-. rewrite Hp. simpl.
  unfold AUTHORIZATION_HEADER_FIELD_NAME. rewrite Ht, He, (truthy_Some _ Hne).
  simpl. unfold validation_chain, catch_, then_, setScopes_callback.
  rewrite getTokenInfo_run in Hok |- *. simpl in Hok. rewrite Hok.
  simpl. rewrite Hset. simpl.
  split; [|done]. by rewrite <- !app_assoc.
Qed.

(** ** Further properties of the two exchanges *)

(** X1: when the transport fails ([fetch] itself rejects with [e]), both
    [requestAccessToken] and [getTokenInfo] reject with [{ msg, err: e }],
    [msg] naming the endpoint that was called. *)
Theorem transport_failure_rejects_wrapped :
  (forall (bodyObject : value) (auth endpoint realm : string) (w : world)
          (e : value),
     net (token_request bodyObject auth endpoint realm) = NetworkError e ->
     fst (requestAccessToken bodyObject auth endpoint realm w) =
       Rejected (VObj [("msg", VStr ("Error requesting access token from "
                                     +s+ endpoint));
                       ("err", e)])) /\
  (forall (tokenInfoUrl accessToken : string) (w : world) (e : value),
     net (tokeninfo_request tokenInfoUrl accessToken) = NetworkError e ->
     fst (getTokenInfo tokenInfoUrl accessToken w) =
       Rejected (VObj [("msg", VStr ("Error requesting tokeninfo from "
                                     +s+ tokenInfoUrl));
                       ("err", e)])).
Proof.
  split.
  - intros bodyObject auth endpoint realm w e H.
    rewrite requestAccessToken_run; simpl. by rewrite H.
  - intros tokenInfoUrl accessToken w e H.
    rewrite getTokenInfo_run; simpl. by rewrite H.
Qed.

(** X2: when the body of the response is not JSON ([response.json()] rejects
    with [e]), both functions reject with [{ msg, err: e }] whatever the
    status of the response is, 200 included. *)
Theorem unparsable_body_rejects_wrapped :
  (forall (bodyObject : value) (auth endpoint realm : string) (w : world)
          (r : response) (e : value),
     net (token_request bodyObject auth endpoint realm) = Responds r ->
     resp_json r = Throw e ->
     fst (requestAccessToken bodyObject auth endpoint realm w) =
       Rejected (VObj [("msg", VStr ("Error requesting access token from "
                                     +s+ endpoint));
                       ("err", e)])) /\
  (forall (tokenInfoUrl accessToken : string) (w : world) (r : response)
          (e : value),
     net (tokeninfo_request tokenInfoUrl accessToken) = Responds r ->
     resp_json r = Throw e ->
     fst (getTokenInfo tokenInfoUrl accessToken w) =
       Rejected (VObj [("msg", VStr ("Error requesting tokeninfo from "
                                     +s+ tokenInfoUrl));
                       ("err", e)])).
Proof.
  split.
  - intros bodyObject auth endpoint realm w r e H J.
    rewrite requestAccessToken_run; simpl. rewrite H. unfold exchange.
    by rewrite J.
  - intros tokenInfoUrl accessToken w r e H J.
    rewrite getTokenInfo_run; simpl. rewrite H. unfold exchange.
    by rewrite J.
Qed.

(** X3: whatever the endpoint does (answer, fail, or stay silent), a call
    of [requestAccessToken] issues exactly one outbound call, the POST, and a
    call of [getTokenInfo] exactly one GET to
    [tokenInfoUrl?access_token=accessToken] without body or headers; neither
    touches the request object.  No timeout is set: when the endpoint never
    answers, the promise stays pending. *)
Theorem each_exchange_is_one_call
    (bodyObject : value)
    (auth endpoint realm tokenInfoUrl accessToken : string) (w : world) :
  (trace (snd (requestAccessToken bodyObject auth endpoint realm w)) =
     trace w ++
     [EvFetch {| ob_url := endpoint +s+ "?realm=" +s+ realm;
                 ob_method := "POST";
                 ob_body := Some (formurlencoded bodyObject);
                 ob_headers :=
                   [("Authorization", auth);
                    ("Content-Type", "application/x-www-form-urlencoded")] |}] /\
   req (snd (requestAccessToken bodyObject auth endpoint realm w)) = req w /\
   (net (token_request bodyObject auth endpoint realm) = NoAnswer ->
    fst (requestAccessToken bodyObject auth endpoint realm w) = Pending)) /\
  (trace (snd (getTokenInfo tokenInfoUrl accessToken w)) =
     trace w ++
     [EvFetch {| ob_url := tokenInfoUrl +s+ "?access_token=" +s+ accessToken;
                 ob_method := "GET";
                 ob_body := None;
                 ob_headers := [] |}] /\
   req (snd (getTokenInfo tokenInfoUrl accessToken w)) = req w /\
   (net (tokeninfo_request tokenInfoUrl accessToken) = NoAnswer ->
    fst (getTokenInfo tokenInfoUrl accessToken w) = Pending)).
Proof.
  rewrite requestAccessToken_run, getTokenInfo_run; simpl.
  repeat split; by intros ->.
Qed.

(** X4: every value [requestAccessToken] or [getTokenInfo] rejects with is
    the two-field object [{ msg, err }]; in particular it has no [status]
    property of its own, whatever the endpoint answered. *)
Theorem exchange_rejections_carry_no_status :
  (forall (bodyObject : value) (auth endpoint realm : string) (w : world)
          (e : value),
     fst (requestAccessToken bodyObject auth endpoint realm w) = Rejected e ->
     (exists err,
        e = VObj [("msg", VStr ("Error requesting access token from "
                                +s+ endpoint));
                  ("err", err)]) /\
     get_prop e "status" = Ok VUndef) /\
  (forall (tokenInfoUrl accessToken : string) (w : world) (e : value),
     fst (getTokenInfo tokenInfoUrl accessToken w) = Rejected e ->
     (exists err,
        e = VObj [("msg", VStr ("Error requesting tokeninfo from "
                                +s+ tokenInfoUrl));
                  ("err", err)]) /\
     get_prop e "status" = Ok VUndef).
Proof.
  split.
  - intros bodyObject auth endpoint realm w e.
    rewrite requestAccessToken_run; simpl.
    intros [err ->]%exchange_rejected. split; [by exists err | done].
  - intros tokenInfoUrl accessToken w e.
    rewrite getTokenInfo_run; simpl.
    intros [err ->]%exchange_rejected. split; [by exists err | done].
Qed.

(** X5: the arguments of [createAuthCodeRequestUri] are inserted as they
    are, without escaping: a client id that contains [&redirect_uri=] yields
    the same URI as the shorter client id with a longer redirect URI. *)
Theorem createAuthCodeRequestUri_does_not_escape
    (authorizationEndpoint x y z : string) :
  createAuthCodeRequestUri authorizationEndpoint
    (x +s+ "&redirect_uri=" +s+ y) z =
  createAuthCodeRequestUri authorizationEndpoint
    x (y +s+ "&redirect_uri=" +s+ z).
Proof.
  unfold createAuthCodeRequestUri. by rewrite !append_assoc.
Qed.

(** ** Further properties of token acquisition *)

(** [bodyParameters_of] has no effect on the world and settles. *)
Lemma bodyParameters_of_pure options userData w :
  exists o, bodyParameters_of options userData w = (o, w) /\ o <> Pending.
Proof.
  unfold bodyParameters_of, then_, of_result, throw, ret.
  destruct (strict_eq_str _ PASSWORD_CREDENTIALS_GRANT).
  - destruct (get_prop userData "application_username"); simpl; [|by eexists].
    destruct (get_prop userData "application_password"); simpl; [|by eexists].
    destruct (join_scopes _); simpl; by eexists.
  - destruct (strict_eq_str _ AUTHORIZATION_CODE_GRANT); by eexists.
Qed.

(** The callback of [getAccessToken] either leaves the world as it is or
    issues the one POST of [requestAccessToken]. *)
Lemma getAccessToken_then_effects options credentials w :
  snd (getAccessToken_then options credentials w) = w \/
  exists bodyParameters auth,
    snd (getAccessToken_then options credentials w) =
      log (EvFetch (token_request bodyParameters auth
                      (accessTokenEndpoint options) (realm options))) w.
Proof.
  set (Q := fun r : outcome value * world =>
         snd r = w \/
         exists bodyParameters auth,
           snd r = log (EvFetch (token_request bodyParameters auth
                           (accessTokenEndpoint options) (realm options))) w).
  assert (Hstep : forall (x : result value) (k : value -> Async value),
            (forall a, Q (k a w)) -> Q (then_ (of_result x) k w)).
  { intros [a|e] k Hk; unfold then_; simpl; [apply Hk | by left]. }
  change (Q (getAccessToken_then options credentials w)).
  unfold getAccessToken_then.
  apply Hstep; intros userData. apply Hstep; intros clientData.
  unfold then_ at 1.
  destruct (bodyParameters_of_pure options userData w) as (o & -> & Ho).
  destruct o as [body|e|]; [|by left|done].
  apply Hstep; intros client_id. apply Hstep; intros client_secret.
  rewrite requestAccessToken_run. right; simpl; eauto.
Qed.

(** X6: [getAccessToken] validates first: what [validateOAuthConfig] throws
    is thrown synchronously, before any file is read.  Otherwise it returns a
    promise, both credential files are read, [user.json] first, and at most
    one outbound call follows the reads: the POST to
    [accessTokenEndpoint?realm=realm] with the form content type. *)
Theorem getAccessToken_reads_then_at_most_one_post
    (options : getAccessToken_options) (w : world) :
  (forall e, validateOAuthConfig options = Some e ->
             getAccessToken options w = (Threw e, w)) /\
  (validateOAuthConfig options = None ->
   let reads := [EvReadFile (credentialsDir options) "user.json";
                 EvReadFile (credentialsDir options) "client.json"] in
   (exists p, fst (getAccessToken options w) = Returned p) /\
   (trace (snd (getAccessToken options w)) = trace w ++ reads \/
    exists bodyParameters auth,
      trace (snd (getAccessToken options w)) =
        trace w ++ reads ++
        [EvFetch
           {| ob_url := accessTokenEndpoint options +s+ "?realm=" +s+ realm options;
              ob_method := "POST";
              ob_body := Some (formurlencoded bodyParameters);
              ob_headers :=
                [("Authorization", auth);
                 ("Content-Type", "application/x-www-form-urlencoded")] |}])).
Proof.
  split.
  - intros e He. unfold getAccessToken. by rewrite He.
  - intros Hv reads. unfold getAccessToken, then_, Promise_all2, getFileData.
    rewrite Hv.
    destruct (fs _ USER_JSON) as [u|e1], (fs _ CLIENT_JSON) as [c|e2]; simpl;
      try (split; [by eexists | left; by rewrite <- app_assoc]).
    pose proof (getAccessToken_then_effects options (u, c)
                  (log (EvReadFile (credentialsDir options) CLIENT_JSON)
                     (log (EvReadFile (credentialsDir options) USER_JSON) w)))
      as Hw.
    destruct (getAccessToken_then _ _ _) as [p w']; simpl in *.
    split; [by exists p|].
    destruct Hw as [->|(body & auth & ->)]; simpl.
    + left. by rewrite <- app_assoc.
    + right. exists body, auth. by rewrite <- !app_assoc.
Qed.

(** X7: when a credential file cannot be read, the promise of
    [getAccessToken] rejects with the read error (with the one that happened
    first when both reads fail); both files were still read, and no outbound
    call is made. *)
Theorem credential_read_failure_rejects
    (options : getAccessToken_options) (w : world) :
  validateOAuthConfig options = None ->
  let reads := [EvReadFile (credentialsDir options) "user.json";
                EvReadFile (credentialsDir options) "client.json"] in
  (forall e c,
     fs (credentialsDir options) "user.json" = FileError e ->
     fs (credentialsDir options) "client.json" = FileData c ->
     fst (getAccessToken options w) = Returned (Rejected e) /\
     trace (snd (getAccessToken options w)) = trace w ++ reads) /\
  (forall u e,
     fs (credentialsDir options) "user.json" = FileData u ->
     fs (credentialsDir options) "client.json" = FileError e ->
     fst (getAccessToken options w) = Returned (Rejected e) /\
     trace (snd (getAccessToken options w)) = trace w ++ reads) /\
  (forall e1 e2,
     fs (credentialsDir options) "user.json" = FileError e1 ->
     fs (credentialsDir options) "client.json" = FileError e2 ->
     fst (getAccessToken options w) =
       Returned (Rejected (if second_read_fails_first then e2 else e1)) /\
     trace (snd (getAccessToken options w)) = trace w ++ reads).
Proof.
  intros Hv reads.
  unfold getAccessToken, then_, Promise_all2, getFileData, USER_JSON, CLIENT_JSON.
  rewrite Hv.
  split; [|split]; intros ? ? H1 H2; rewrite H1, H2; simpl;
    (split; [done | by rewrite <- app_assoc]).
Qed.

(** X8: when a credential file is read but [JSON.parse] throws on its
    contents, the promise of [getAccessToken] rejects with what [JSON.parse]
    threw, [user.json] being parsed first, and no outbound call is made. *)
Theorem credential_parse_failure_rejects
    (options : getAccessToken_options) (w : world) (u c : string) :
  validateOAuthConfig options = None ->
  fs (credentialsDir options) "user.json" = FileData u ->
  fs (credentialsDir options) "client.json" = FileData c ->
  let reads := [EvReadFile (credentialsDir options) "user.json";
                EvReadFile (credentialsDir options) "client.json"] in
  (forall e,
     JSON_parse u = Throw e ->
     fst (getAccessToken options w) = Returned (Rejected e) /\
     trace (snd (getAccessToken options w)) = trace w ++ reads) /\
  (forall userData e,
     JSON_parse u = Ok userData ->
     JSON_parse c = Throw e ->
     fst (getAccessToken options w) = Returned (Rejected e) /\
     trace (snd (getAccessToken options w)) = trace w ++ reads).
Proof.
  intros Hv Hu Hc reads.
  rewrite (getAccessToken_loaded _ _ _ _ Hv Hu Hc); simpl.
  unfold getAccessToken_then, then_, of_result, throw, ret; simpl.
  split.
  - intros e Je. rewrite Je; simpl. split; [done | by rewrite <- app_assoc].
  - intros userData e Ju Je. rewrite Ju, Je; simpl.
    split; [done | by rewrite <- app_assoc].
Qed.

(** X9: the password grant needs [options.scopes]: without it, although the
    credentials are read and parsed, [options.scopes.join] throws, the promise
    of [getAccessToken] rejects with a [TypeError], and no outbound call is
    made. *)
Theorem password_grant_without_scopes_rejects
    (options : getAccessToken_options) (w : world)
    (u c : string) (userData clientData : value) :
  validateOAuthConfig options = None ->
  fs (credentialsDir options) "user.json" = FileData u ->
  fs (credentialsDir options) "client.json" = FileData c ->
  JSON_parse u = Ok userData ->
  JSON_parse c = Ok clientData ->
  nullish userData = false ->
  grantType options = VStr PASSWORD_CREDENTIALS_GRANT ->
  opt_scopes options = None ->
  (exists e, fst (getAccessToken options w) = Returned (Rejected e) /\
             is_TypeError e) /\
  trace (snd (getAccessToken options w)) =
    trace w ++ [EvReadFile (credentialsDir options) "user.json";
                EvReadFile (credentialsDir options) "client.json"].
Proof.
  intros Hv Hu Hc Ju Jc Nud Hg Hs.
  rewrite (getAccessToken_loaded _ _ _ _ Hv Hu Hc); simpl.
  unfold getAccessToken_then, bodyParameters_of, then_, of_result; simpl.
  rewrite Ju, Jc; simpl.
  rewrite Hg, Hs, !(get_prop_Ok userData) by done. simpl.
  rewrite String.eqb_refl; simpl.
  split; [by eexists | by rewrite <- app_assoc].
Qed.

(** X10: a credential document that parses to [null] makes the first read of
    one of its fields throw: with the password grant and a null [user.json],
    or with either grant and a null [client.json], the promise of
    [getAccessToken] rejects with a [TypeError] and no outbound call is
    made. *)
Theorem null_credentials_document_rejects
    (options : getAccessToken_options) (w : world)
    (u c : string) (userData clientData : value) :
  validateOAuthConfig options = None ->
  fs (credentialsDir options) "user.json" = FileData u ->
  fs (credentialsDir options) "client.json" = FileData c ->
  JSON_parse u = Ok userData ->
  JSON_parse c = Ok clientData ->
  let failed :=
    (exists e, fst (getAccessToken options w) = Returned (Rejected e) /\
               is_TypeError e) /\
    trace (snd (getAccessToken options w)) =
      trace w ++ [EvReadFile (credentialsDir options) "user.json";
                  EvReadFile (credentialsDir options) "client.json"] in
  (grantType options = VStr PASSWORD_CREDENTIALS_GRANT ->
   userData = VNull -> failed) /\
  (grantType options = VStr PASSWORD_CREDENTIALS_GRANT ->
   nullish userData = false ->
   (exists l, opt_scopes options = Some l) ->
   clientData = VNull -> failed) /\
  (grantType options = VStr AUTHORIZATION_CODE_GRANT ->
   AUTHORIZATION_CODE_GRANT <> PASSWORD_CREDENTIALS_GRANT ->
   clientData = VNull -> failed).
Proof.
  intros Hv Hu Hc Ju Jc failed. unfold failed; clear failed.
  rewrite (getAccessToken_loaded _ _ _ _ Hv Hu Hc); simpl.
  unfold getAccessToken_then, bodyParameters_of, then_, of_result; simpl.
  rewrite Ju, Jc; simpl.
  split; [|split].
  - intros Hg ->. rewrite Hg. simpl. rewrite String.eqb_refl; simpl.
    split; [by eexists | by rewrite <- app_assoc].
  - intros Hg Nud [l Hs] ->.
    rewrite Hg, Hs, !(get_prop_Ok userData) by done. simpl.
    rewrite String.eqb_refl; simpl.
    split; [by eexists | by rewrite <- app_assoc].
  - intros Hg Hne ->. rewrite Hg. simpl.
    rewrite (proj2 (String.eqb_neq _ _) Hne), String.eqb_refl; simpl.
    split; [by eexists | by rewrite <- app_assoc].
Qed.

(** X11: [getAccessToken] adds nothing to the outcome of the exchange: once
    the credentials are read and parsed, its promise settles exactly as the
    promise of [requestAccessToken] called with the grant body, the Basic
    header of the client credentials, the endpoint and the realm. *)
Theorem getAccessToken_settles_as_requestAccessToken
    (options : getAccessToken_options) (w w' : world)
    (u c : string) (userData clientData : value) :
  validateOAuthConfig options = None ->
  fs (credentialsDir options) "user.json" = FileData u ->
  fs (credentialsDir options) "client.json" = FileData c ->
  JSON_parse u = Ok userData ->
  JSON_parse c = Ok clientData ->
  nullish clientData = false ->
  let auth := getBasicAuthHeaderValue (prop clientData "client_id")
                                      (prop clientData "client_secret") in
  (forall l,
     grantType options = VStr PASSWORD_CREDENTIALS_GRANT ->
     nullish userData = false ->
     opt_scopes options = Some l ->
     fst (getAccessToken options w) =
       Returned
         (fst (requestAccessToken
                 (VObj [("grant_type", VStr PASSWORD_CREDENTIALS_GRANT);
                        ("username", prop userData "application_username");
                        ("password", prop userData "application_password");
                        ("scope", VStr (String.concat " " l))])
                 auth (accessTokenEndpoint options) (realm options) w'))) /\
  (grantType options = VStr AUTHORIZATION_CODE_GRANT ->
   AUTHORIZATION_CODE_GRANT <> PASSWORD_CREDENTIALS_GRANT ->
   fst (getAccessToken options w) =
     Returned
       (fst (requestAccessToken
               (VObj [("grant_type", VStr AUTHORIZATION_CODE_GRANT);
                      ("code", code options);
                      ("redirect_uri", redirectUri options)])
               auth (accessTokenEndpoint options) (realm options) w'))).
Proof.
  intros Hv Hu Hc Ju Jc Ncd auth. subst auth.
  split.
  - intros l Hg Nud Hs.
    rewrite (getAccessToken_outcome options w u c userData clientData
               (VObj [("grant_type", VStr PASSWORD_CREDENTIALS_GRANT);
                      ("username", prop userData "application_username");
                      ("password", prop userData "application_password");
                      ("scope", VStr (String.concat " " l))]));
      try done.
    + by rewrite requestAccessToken_run.
    + intros w0. unfold bodyParameters_of, then_, of_result.
      rewrite Hg, Hs, !(get_prop_Ok userData) by done. simpl.
      by rewrite String.eqb_refl.
  - intros Hg Hne.
    rewrite (getAccessToken_outcome options w u c userData clientData
               (VObj [("grant_type", VStr AUTHORIZATION_CODE_GRANT);
                      ("code", code options);
                      ("redirect_uri", redirectUri options)]));
      try done.
    + by rewrite requestAccessToken_run.
    + intros w0. unfold bodyParameters_of. rewrite Hg. simpl.
      by rewrite (proj2 (String.eqb_neq _ _) Hne), String.eqb_refl.
Qed.

(** ** Further properties of the request middleware *)

(** X12: the status of the introspection endpoint is not forwarded: when it
    answers with any status other than 200 (403, 500, ...), the rejection of
    [getTokenInfo] has no [status] of its own, [rejectRequest] is called with
    [undefined], and the request is rejected with the default 401. *)
Theorem upstream_status_is_not_forwarded
    (options : middleware_options) (mw : world -> world) (w : world)
    (endpoint token : string) (r : response) :
  handleOAuthRequestMiddleware options = Ok mw ->
  tokenInfoEndpoint options = Some endpoint ->
  is_public options (req w) = false ->
  extractAccessToken (getHeaderValue (req w) "authorization") = Some token ->
  token <> "" ->
  net (tokeninfo_request endpoint token) = Responds r ->
  resp_status r <> HttpStatus.OK ->
  trace (mw w) =
    trace w ++ [EvExtractToken (getHeaderValue (req w) "authorization");
                EvFetch (tokeninfo_request endpoint token);
                EvReject 401].
Proof.
  intros Hmw He Hp Ht Hne Hnet Hst.
  rewrite (token_path_failure options mw w endpoint token
             (wrapped ("Error requesting tokeninfo from " +s+ endpoint)
                      (caught r))); try done.
  - simpl. by rewrite <- !app_assoc.
  - rewrite Hnet. unfold exchange, caught.
    apply Z.eqb_neq in Hst. rewrite Hst. by destruct (resp_json r).
Qed.

(** X13: [handleOAuthRequestMiddleware(options)] returns a middleware exactly
    when [options.tokenInfoEndpoint] is a non-empty string; when it is absent
    or empty the call throws [TypeError('tokenInfoEndpoint must be defined')],
    whatever [publicEndpoints] is. *)
Theorem middleware_needs_tokenInfoEndpoint (options : middleware_options) :
  ((exists mw, handleOAuthRequestMiddleware options = Ok mw) <->
   (exists endpoint,
      tokenInfoEndpoint options = Some endpoint /\ endpoint <> "")) /\
  ((tokenInfoEndpoint options = None \/ tokenInfoEndpoint options = Some "") ->
   handleOAuthRequestMiddleware options =
     Throw (VErr TypeError "tokenInfoEndpoint must be defined")).
Proof.
  unfold handleOAuthRequestMiddleware.
  destruct (tokenInfoEndpoint options) as [endpoint|]; simpl.
  - destruct (String.eqb_spec endpoint "") as [->|Hne]; simpl.
    + split; [|done]. split; [by intros [? [=]] | by intros (? & [= <-] & ?)].
    + split; [|by intros [[=]|[=]]].
      split; [intros _; by exists endpoint | intros _; by eexists].
  - split; [|done]. split; [by intros [? [=]] | by intros (? & [=] & ?)].
Qed.

(** X14: when the introspection endpoint answers 200 with a JSON body, the
    callback of [setScopes(req)] is run on that body, the request object
    becomes what the callback made of it, and [next()] is called once, after
    the one outbound call. *)
Theorem successful_introspection_continues
    (options : middleware_options) (mw : world -> world) (w : world)
    (endpoint token : string) (r : response) (data : value) (r' : inbound) :
  handleOAuthRequestMiddleware options = Ok mw ->
  tokenInfoEndpoint options = Some endpoint ->
  is_public options (req w) = false ->
  extractAccessToken (getHeaderValue (req w) "authorization") = Some token ->
  token <> "" ->
  net (tokeninfo_request endpoint token) = Responds r ->
  resp_status r = HttpStatus.OK ->
  resp_json r = Ok data ->
  setScopes (req w) data = Ok r' ->
  trace (mw w) =
    trace w ++ [EvExtractToken (getHeaderValue (req w) "authorization");
                EvFetch (tokeninfo_request endpoint token);
                EvNext] /\
  req (mw w) = r'.
Proof.
  intros Hmw He Hp Ht Hne Hnet Hst Hj Hset.
  apply (introspection_success_continues options mw w endpoint token data r');
    try done.
  rewrite getTokenInfo_run; simpl. rewrite Hnet. unfold exchange.
  by rewrite Hj, Hst.
Qed.

(** X15: when the callback of [setScopes(req)] throws an object [e] on the
    body of a successful introspection, the [catch] of the chain handles it
    like a failed introspection: the request is rejected with [e.status], or
    with 401 when [e] has none, and [next()] is not called. *)
Theorem setScopes_failure_rejects
    (options : middleware_options) (mw : world -> world) (w : world)
    (endpoint token : string) (r : response) (data e : value) :
  handleOAuthRequestMiddleware options = Ok mw ->
  tokenInfoEndpoint options = Some endpoint ->
  is_public options (req w) = false ->
  extractAccessToken (getHeaderValue (req w) "authorization") = Some token ->
  token <> "" ->
  net (tokeninfo_request endpoint token) = Responds r ->
  resp_status r = HttpStatus.OK ->
  resp_json r = Ok data ->
  setScopes (req w) data = Throw e ->
  nullish e = false ->
  trace (mw w) =
    trace w ++ [EvExtractToken (getHeaderValue (req w) "authorization");
                EvFetch (tokeninfo_request endpoint token);
                EvReject (match prop e "status" with
                          | VNum status => status
                          | _ => 401
                          end)].
Proof.
  unfold handleOAuthRequestMiddleware.
  intros Hmw He Hp Ht Hne Hnet Hst Hj Hset Hn.
  destruct (negb (truthy (tokenInfoEndpoint options))); [done|].
  injection Hmw as <-. rewrite Hp. simpl.
  unfold AUTHORIZATION_HEADER_FIELD_NAME. rewrite Ht, He, (truthy_Some _ Hne).
  simpl. unfold validation_chain, catch_, then_, setScopes_callback.
  rewrite getTokenInfo_run; simpl. rewrite Hnet. unfold exchange.
  rewrite Hj, Hst. simpl. rewrite Hset. simpl.
  rewrite (get_prop_Ok _ _ Hn). simpl. by rewrite <- !app_assoc.
Qed.

(** What the middleware does to the trace, case by case. *)
Lemma middleware_trace_shape options mw w :
  handleOAuthRequestMiddleware options = Ok mw ->
  let header := getHeaderValue (req w) "authorization" in
  (is_public options (req w) = true /\ trace (mw w) = trace w ++ [EvNext]) \/
  (is_public options (req w) = false /\
   trace (mw w) = trace w ++ [EvExtractToken header; EvReject 401]) \/
  (exists endpoint token tail,
     is_public options (req w) = false /\
     tokenInfoEndpoint options = Some endpoint /\
     extractAccessToken header = Some token /\
     token <> "" /\
     trace (mw w) =
       trace w ++ EvExtractToken header
               :: EvFetch (tokeninfo_request endpoint token) :: tail /\
     (tail = [] \/ tail = [EvNext] \/ exists status, tail = [EvReject status])).
Proof.
  intros Hmw header. subst header.
  destruct (handleOAuthRequestMiddleware_Ok _ _ Hmw) as (endpoint & He & _).
  revert Hmw. unfold handleOAuthRequestMiddleware.
  destruct (negb (truthy (tokenInfoEndpoint options))); [done|].
  intros [= <-].
  destruct (is_public options (req w)) eqn:Hp; [by left|]. right.
  simpl. unfold AUTHORIZATION_HEADER_FIELD_NAME.
  destruct (extractAccessToken _) as [token|] eqn:Ht; simpl;
    [|left; split; [done | by rewrite <- app_assoc]].
  destruct (String.eqb_spec token "") as [->|Hne]; simpl;
    [left; split; [done | by rewrite <- app_assoc]|].
  right. exists endpoint, token. rewrite He. simpl.
  unfold validation_chain, catch_, then_, setScopes_callback.
  rewrite getTokenInfo_run; simpl.
  destruct (exchange _ _) as [data|e|] eqn:Hx.
  - destruct (setScopes (req w) data) as [r'|e]; simpl.
    + exists [EvNext]. repeat split; try done; [by rewrite <- !app_assoc | eauto].
    + destruct (get_prop e "status"); simpl.
      * eexists [EvReject _].
        repeat split; try done; [by rewrite <- !app_assoc | eauto].
      * exists []. repeat split; try done; [by rewrite <- !app_assoc | eauto].
  - destruct (exchange_rejected _ _ _ Hx) as [err ->]. simpl.
    eexists [EvReject _].
    repeat split; try done; [by rewrite <- !app_assoc | eauto].
  - simpl. exists [].
    repeat split; try done; [by rewrite <- !app_assoc | eauto].
Qed.

(** X16: per request the middleware issues at most one outbound call, and
    only for a request that is not public and carries a token: the GET to
    [tokenInfoEndpoint?access_token=token] for the token extracted from the
    authorization header. *)
Theorem middleware_calls_introspection_at_most_once
    (options : middleware_options) (mw : world -> world) (w : world) :
  handleOAuthRequestMiddleware options = Ok mw ->
  exists evs,
    trace (mw w) = trace w ++ evs /\
    (forall i j r1 r2,
       evs !! i = Some (EvFetch r1) -> evs !! j = Some (EvFetch r2) -> i = j) /\
    (forall r,
       EvFetch r ∈ evs ->
       is_public options (req w) = false /\
       exists endpoint token,
         tokenInfoEndpoint options = Some endpoint /\
         extractAccessToken (getHeaderValue (req w) "authorization") =
           Some token /\
         token <> "" /\
         r = {| ob_url := endpoint +s+ "?access_token=" +s+ token;
                ob_method := "GET";
                ob_body := None;
                ob_headers := [] |}).
Proof.
  intros Hmw.
  destruct (middleware_trace_shape options mw w Hmw)
    as [[_ ->]|[[_ ->]|(endpoint & token & tail & Hp & He & Ht & Hne & -> & Htail)]].
  - exists [EvNext]. split; [done|]. split.
    + intros i j r1 r2 Hi _. by destruct i as [|[|i]].
    + intros r Hr. by apply list_elem_of_singleton in Hr.
  - eexists. split; [done|]. split.
    + intros i j r1 r2 Hi _. by destruct i as [|[|[|i]]].
    + intros r Hr. apply elem_of_cons in Hr as [Hr|Hr]; [done|].
      by apply list_elem_of_singleton in Hr.
  - eexists. split; [done|].
    assert (forall r, EvFetch r ∉ tail) as Hno.
    { intros r Hr. destruct Htail as [->|[->|[s ->]]].
      - by apply elem_of_nil in Hr.
      - by apply list_elem_of_singleton in Hr.
      - by apply list_elem_of_singleton in Hr. }
    split.
    + intros i j r1 r2 Hi Hj.
      destruct i as [|[|i]], j as [|[|j]]; simpl in *; try done.
      * exfalso. apply (Hno r2). by eapply list_elem_of_lookup_2.
      * exfalso. apply (Hno r1). by eapply list_elem_of_lookup_2.
      * exfalso. apply (Hno r1). by eapply list_elem_of_lookup_2.
    + intros r Hr. apply elem_of_cons in Hr as [[=]|Hr].
      apply elem_of_cons in Hr as [[= ->]|Hr]; [|by apply Hno in Hr].
      split; [done|]. by exists endpoint, token.
Qed.

(** ** Further properties of scope enforcement *)

Lemma requireScopes_continues_iff scopes w :
  requireScopesMiddleware scopes w = log EvNext w <->
  or_empty scopes ⊆ or_empty (req_scopes (req w)).
Proof.
  rewrite requireScopesMiddleware_run.
  destruct (bool_decide_reflect
              (or_empty scopes ⊆ or_empty (req_scopes (req w)))) as [H|H].
  - done.
  - split; [|done]. intros E. by apply log_inj in E.
Qed.

(** X17: with nothing to require, either because the list of required scopes
    is absent or because it is empty, every request continues, also one that
    has no scopes attached. *)
Theorem requireScopes_nothing_required (w : world) :
  requireScopesMiddleware None w = log EvNext w /\
  requireScopesMiddleware (Some []) w = log EvNext w.
Proof.
  split; apply requireScopes_continues_iff; simpl; apply list_subseteq_nil.
Qed.

(** X18: only the sets of scopes matter: two lists of required scopes with
    the same elements, in any order and with any repetitions, are enforced
    alike, and so are two lists of attached scopes with the same elements. *)
Theorem requireScopes_ignores_order_and_duplicates
    (scopes1 scopes2 granted1 granted2 : list string)
    (url : string) (hs : list (string * string)) (w : world) :
  (forall s, s ∈ scopes1 <-> s ∈ scopes2) ->
  (forall s, s ∈ granted1 <-> s ∈ granted2) ->
  trace (requireScopesMiddleware (Some scopes1)
           (set_req (mkInbound url hs (Some granted1)) w)) =
  trace (requireScopesMiddleware (Some scopes2)
           (set_req (mkInbound url hs (Some granted2)) w)).
Proof.
  intros Hs Hg. rewrite !requireScopesMiddleware_run. simpl.
  rewrite (bool_decide_ext (scopes1 ⊆ granted1) (scopes2 ⊆ granted2)).
  - by destruct (bool_decide _).
  - split; intros H x Hx; apply Hg, H, Hs, Hx.
Qed.

(** X19: enforcement is monotone: a request that continues still continues
    when fewer scopes are required or more scopes are attached. *)
Theorem requireScopes_monotone
    (scopes scopes' : option (list string)) (w w' : world) :
  or_empty scopes' ⊆ or_empty scopes ->
  or_empty (req_scopes (req w)) ⊆ or_empty (req_scopes (req w')) ->
  requireScopesMiddleware scopes w = log EvNext w ->
  requireScopesMiddleware scopes' w' = log EvNext w'.
Proof.
  intros Hs Hg H. apply requireScopes_continues_iff in H.
  apply requireScopes_continues_iff.
  intros x Hx. by apply Hg, H, Hs.
Qed.

(** X20: the two middlewares in a row: after a successful introspection the
    scope check reads the scopes that the callback of [setScopes(req)] left
    on the request, so the handler is reached ([next()] a second time) exactly
    when every required scope is among them, and the request is rejected with
    403 otherwise. *)
Theorem validated_request_then_scope_check
    (options : middleware_options) (mw : world -> world) (w : world)
    (endpoint token : string) (r : response) (data : value) (r' : inbound)
    (scopes : option (list string)) :
  handleOAuthRequestMiddleware options = Ok mw ->
  tokenInfoEndpoint options = Some endpoint ->
  is_public options (req w) = false ->
  extractAccessToken (getHeaderValue (req w) "authorization") = Some token ->
  token <> "" ->
  net (tokeninfo_request endpoint token) = Responds r ->
  resp_status r = HttpStatus.OK ->
  resp_json r = Ok data ->
  setScopes (req w) data = Ok r' ->
  let before := trace w ++
                [EvExtractToken (getHeaderValue (req w) "authorization");
                 EvFetch (tokeninfo_request endpoint token);
                 EvNext] in
  (or_empty scopes ⊆ or_empty (req_scopes r') ->
   trace (requireScopesMiddleware scopes (mw w)) = before ++ [EvNext]) /\
  (~ or_empty scopes ⊆ or_empty (req_scopes r') ->
   trace (requireScopesMiddleware scopes (mw w)) = before ++ [EvReject 403]).
Proof.
  intros Hmw He Hp Ht Hne Hnet Hst Hj Hset before. subst before.
  destruct (introspection_success_continues options mw w endpoint token data r')
    as [Htr Hreq]; try done.
  { rewrite getTokenInfo_run; simpl. rewrite Hnet. unfold exchange.
    by rewrite Hj, Hst. }
  rewrite requireScopesMiddleware_run, Hreq.
  destruct (bool_decide_reflect (or_empty scopes ⊆ or_empty (req_scopes r')))
    as [H|H]; simpl; rewrite Htr; by split.
Qed.

End OAuthTooling.

(** ** The module on the concrete platform *)

Example createAuthCodeRequestUri_sample :
  createAuthCodeRequestUri Sample.EMPLOYEES_REALM
    "https://auth.example.org/oauth2/authorize" "frontend"
    "https://app.example.org/cb" =
  "https://auth.example.org/oauth2/authorize?client_id=frontend&redirect_uri=https://app.example.org/cb&response_type=code&realm=/employees".
Proof. reflexivity. Qed.

(** The scenario of the spec: required [{A, B}], granted [{A, B, C}] continues;
    granted [{A}] is rejected with 403; no scopes attached is rejected too. *)
Example requireScopes_sample :
  trace (requireScopesMiddleware (Some ["A"; "B"])
           (Sample.w0 (Sample.request "/api" "" (Some ["A"; "B"; "C"])))) =
    [EvNext] /\
  trace (requireScopesMiddleware (Some ["A"; "B"])
           (Sample.w0 (Sample.request "/api" "" (Some ["A"])))) =
    [EvReject 403] /\
  trace (requireScopesMiddleware (Some ["A"])
           (Sample.w0 (Sample.request "/api" "" None))) =
    [EvReject 403].
Proof. repeat split; vm_compute; reflexivity. Qed.

Lemma non_ok_status_rejects_wrapped_witness :
  fst (requestAccessToken Sample.formurlencoded Sample.net_forbidden
         (VObj [("grant_type", VStr "password")]) "Basic frontend:hush"
         "https://auth.example.org/oauth2/access_token" "/services"
         (Sample.w0 (Sample.request "/api" "" None))) =
    Rejected
      (VObj [("msg", VStr "Error requesting access token from https://auth.example.org/oauth2/access_token");
             ("err", VObj [("status", VNum 403);
                           ("data", Sample.error_body)])]) /\
  fst (getTokenInfo Sample.net_forbidden
         "https://auth.example.org/oauth2/tokeninfo" "abc"
         (Sample.w0 (Sample.request "/api" "" None))) =
    Rejected
      (VObj [("msg", VStr "Error requesting tokeninfo from https://auth.example.org/oauth2/tokeninfo");
             ("err", VObj [("status", VNum 403);
                           ("data", Sample.error_body)])]).
Proof.
  split.
  - apply (proj1 (non_ok_status_rejects_wrapped Sample.formurlencoded
                    Sample.net_forbidden)
             _ _ _ _ _ (mkResponse 403 (Ok Sample.error_body)));
      [reflexivity | discriminate].
  - apply (proj2 (non_ok_status_rejects_wrapped Sample.formurlencoded
                    Sample.net_forbidden)
             _ _ _ (mkResponse 403 (Ok Sample.error_body)));
      [reflexivity | discriminate].
Defined.

(** The endpoint answers 403 with a JSON body, and neither function rejects
    with the bare [{ status, data }]. *)
Lemma upstream_rejection_not_verbatim :
  Sample.net_forbidden
    (tokeninfo_request "https://auth.example.org/oauth2/tokeninfo" "abc") =
    Responds (mkResponse 403 (Ok Sample.error_body)) /\
  403 <> HttpStatus.OK /\
  fst (getTokenInfo Sample.net_forbidden
         "https://auth.example.org/oauth2/tokeninfo" "abc"
         (Sample.w0 (Sample.request "/api" "" None))) <>
    Rejected (VObj [("status", VNum 403); ("data", Sample.error_body)]) /\
  fst (requestAccessToken Sample.formurlencoded Sample.net_forbidden
         (VObj [("grant_type", VStr "password")]) "Basic frontend:hush"
         "https://auth.example.org/oauth2/access_token" "/services"
         (Sample.w0 (Sample.request "/api" "" None))) <>
    Rejected (VObj [("status", VNum 403); ("data", Sample.error_body)]).
Proof. repeat split; vm_compute; discriminate. Qed.

Lemma ok_status_resolves_with_body_witness :
  fst (requestAccessToken Sample.formurlencoded Sample.net_ok
         (VObj [("grant_type", VStr "password")]) "Basic frontend:hush"
         "https://auth.example.org/oauth2/access_token" "/services"
         (Sample.w0 (Sample.request "/api" "" None))) =
    Fulfilled Sample.token_body /\
  fst (getTokenInfo Sample.net_ok
         "https://auth.example.org/oauth2/tokeninfo" "abc"
         (Sample.w0 (Sample.request "/api" "" None))) =
    Fulfilled Sample.token_body.
Proof.
  split.
  - apply (proj1 (ok_status_resolves_with_body Sample.formurlencoded
                    Sample.net_ok)
             _ _ _ _ _ (mkResponse 200 (Ok Sample.token_body)));
      reflexivity.
  - apply (proj2 (ok_status_resolves_with_body Sample.formurlencoded
                    Sample.net_ok)
             _ _ _ (mkResponse 200 (Ok Sample.token_body)));
      reflexivity.
Defined.

(** [getAccessToken] on the concrete platform. *)
Abbreviation sample_getAccessToken net :=
  (getAccessToken Sample.AUTHORIZATION_CODE_GRANT
     Sample.PASSWORD_CREDENTIALS_GRANT Sample.getBasicAuthHeaderValue
     Sample.validateOAuthConfig Sample.JSON_parse Sample.formurlencoded
     net Sample.fs false).

Lemma getAccessToken_issues_one_post_witness :
  trace (snd (sample_getAccessToken Sample.net_ok
                (Sample.password_options "credentials"
                   (VStr Sample.PASSWORD_CREDENTIALS_GRANT))
                (Sample.w0 (Sample.request "/api" "" None)))) =
    [EvReadFile "credentials" "user.json";
     EvReadFile "credentials" "client.json";
     EvFetch
       {| ob_url := "https://auth.example.org/oauth2/access_token?realm=/services";
          ob_method := "POST";
          ob_body := Some "grant_type=password&username=stups&password=secret&scope=campaign.edit_all campaign.read_all";
          ob_headers :=
            [("Authorization", "Basic frontend:hush");
             ("Content-Type", "application/x-www-form-urlencoded")] |}] /\
  trace (snd (sample_getAccessToken Sample.net_ok Sample.code_options
                (Sample.w0 (Sample.request "/api" "" None)))) =
    [EvReadFile "credentials" "user.json";
     EvReadFile "credentials" "client.json";
     EvFetch
       {| ob_url := "https://auth.example.org/oauth2/access_token?realm=/employees";
          ob_method := "POST";
          ob_body := Some "grant_type=authorization_code&code=c0de&redirect_uri=https://app.example.org/cb";
          ob_headers :=
            [("Authorization", "Basic frontend:hush");
             ("Content-Type", "application/x-www-form-urlencoded")] |}].
Proof.
  split.
  - apply (proj1 (getAccessToken_issues_one_post
             Sample.AUTHORIZATION_CODE_GRANT Sample.PASSWORD_CREDENTIALS_GRANT
             Sample.getBasicAuthHeaderValue Sample.validateOAuthConfig
             Sample.JSON_parse Sample.formurlencoded Sample.net_ok Sample.fs
             false
             (Sample.password_options "credentials"
                (VStr Sample.PASSWORD_CREDENTIALS_GRANT))
             (Sample.w0 (Sample.request "/api" "" None))
             Sample.user_json Sample.client_json
             Sample.userData Sample.clientData
             eq_refl eq_refl eq_refl eq_refl eq_refl eq_refl)
           ["campaign.edit_all"; "campaign.read_all"]);
      reflexivity.
  - apply (proj2 (getAccessToken_issues_one_post
             Sample.AUTHORIZATION_CODE_GRANT Sample.PASSWORD_CREDENTIALS_GRANT
             Sample.getBasicAuthHeaderValue Sample.validateOAuthConfig
             Sample.JSON_parse Sample.formurlencoded Sample.net_ok Sample.fs
             false Sample.code_options
             (Sample.w0 (Sample.request "/api" "" None))
             Sample.user_json Sample.client_json
             Sample.userData Sample.clientData
             eq_refl eq_refl eq_refl eq_refl eq_refl eq_refl));
      [reflexivity | discriminate].
Defined.

(** The request middleware on the concrete platform. *)
Abbreviation sample_middleware net :=
  (handleOAuthRequestMiddleware Sample.match_ Sample.setScopes
     Sample.getHeaderValue Sample.extractAccessToken net Sample.mw_options).

Lemma public_endpoint_continues_witness :
  exists mw,
    sample_middleware Sample.net_forbidden = Ok mw /\
    trace (mw (Sample.w0 (mkInbound "/health" [] None))) = [EvNext].
Proof.
  eexists. split; [reflexivity|].
  apply (proj2 (public_endpoint_continues Sample.match_ Sample.setScopes
           Sample.getHeaderValue Sample.extractAccessToken Sample.net_forbidden
           Sample.mw_options _ ["/health"; "/public"]
           (Sample.w0 (mkInbound "/health" [] None))
           eq_refl eq_refl eq_refl)).
Defined.

Lemma missing_token_rejected_unauthorized_witness :
  exists mw,
    sample_middleware Sample.net_ok = Ok mw /\
    trace (mw (Sample.w0 (mkInbound "/api" [] None))) =
      [EvExtractToken ""; EvReject 401] /\
    trace (mw (Sample.w0 (Sample.request "/api" "Basic Zm9v" None))) =
      [EvExtractToken "Basic Zm9v"; EvReject 401].
Proof.
  eexists. split; [reflexivity|]. split.
  - apply (proj2 (missing_token_rejected_unauthorized Sample.match_
             Sample.setScopes Sample.getHeaderValue Sample.extractAccessToken
             Sample.net_ok Sample.mw_options _
             (Sample.w0 (mkInbound "/api" [] None))
             eq_refl eq_refl eq_refl)).
  - apply (proj2 (missing_token_rejected_unauthorized Sample.match_
             Sample.setScopes Sample.getHeaderValue Sample.extractAccessToken
             Sample.net_ok Sample.mw_options _
             (Sample.w0 (Sample.request "/api" "Basic Zm9v" None))
             eq_refl eq_refl eq_refl)).
Defined.

(** A successful introspection attaches the scopes and continues. *)
Example introspection_success_sample :
  exists mw,
    handleOAuthRequestMiddleware Sample.match_ Sample.setScopes
      Sample.getHeaderValue Sample.extractAccessToken
      (fun _ => Responds (mkResponse 200
                  (Ok (VObj [("scope", VArr [VStr "A"; VStr "B"])]))))
      Sample.mw_options = Ok mw /\
    req_scopes (req (mw (Sample.w0 (Sample.request "/api" "Bearer abc" None)))) =
      Some ["A"; "B"] /\
    trace (requireScopesMiddleware (Some ["A"])
             (mw (Sample.w0 (Sample.request "/api" "Bearer abc" None)))) =
      [EvExtractToken "Bearer abc";
       EvFetch
         {| ob_url := "https://auth.example.org/oauth2/tokeninfo?access_token=abc";
            ob_method := "GET";
            ob_body := None;
            ob_headers := [] |};
       EvNext; EvNext].
Proof. eexists. split; [reflexivity|]. split; vm_compute; reflexivity. Qed.

(** The handler itself forwards a status that sits on the rejection value:
    a promise rejected with the bare [{ status: 403, data }] is answered 403. *)
Example validation_chain_forwards_status :
  trace (snd (validation_chain Sample.setScopes
                (throw (VObj [("status", VNum 403);
                              ("data", Sample.error_body)]))
                (Sample.w0 (Sample.request "/api" "Bearer abc" None)))) =
    [EvReject 403].
Proof. reflexivity. Qed.

(** ** Further properties on the concrete platform *)

Abbreviation sample_w := (Sample.w0 (Sample.request "/api" "" None)).

Lemma transport_failure_rejects_wrapped_witness :
  fst (requestAccessToken Sample.formurlencoded Sample.net_down
         (VObj [("grant_type", VStr "password")]) "Basic frontend:hush"
         "https://auth.example.org/oauth2/access_token" "/services" sample_w) =
    Rejected
      (VObj [("msg", VStr "Error requesting access token from https://auth.example.org/oauth2/access_token");
             ("err", Sample.ECONNREFUSED)]) /\
  fst (getTokenInfo Sample.net_down
         "https://auth.example.org/oauth2/tokeninfo" "abc" sample_w) =
    Rejected
      (VObj [("msg", VStr "Error requesting tokeninfo from https://auth.example.org/oauth2/tokeninfo");
             ("err", Sample.ECONNREFUSED)]).
Proof.
  split.
  - apply (proj1 (transport_failure_rejects_wrapped Sample.formurlencoded
                    Sample.net_down)); reflexivity.
  - apply (proj2 (transport_failure_rejects_wrapped Sample.formurlencoded
                    Sample.net_down)); reflexivity.
Defined.

(** The answer of the test server to a wrong authorization header: 401 with
    the text [Unauthorized]. *)
Lemma unparsable_body_rejects_wrapped_witness :
  fst (requestAccessToken Sample.formurlencoded Sample.net_text
         (VObj [("grant_type", VStr "password")]) "invalid"
         "https://auth.example.org/oauth2/access_token" "/services" sample_w) =
    Rejected
      (VObj [("msg", VStr "Error requesting access token from https://auth.example.org/oauth2/access_token");
             ("err", Sample.invalid_json)]) /\
  fst (getTokenInfo Sample.net_text
         "https://auth.example.org/oauth2/tokeninfo" "abc" sample_w) =
    Rejected
      (VObj [("msg", VStr "Error requesting tokeninfo from https://auth.example.org/oauth2/tokeninfo");
             ("err", Sample.invalid_json)]).
Proof.
  split.
  - apply (proj1 (unparsable_body_rejects_wrapped Sample.formurlencoded
                    Sample.net_text)
             _ _ _ _ _ (mkResponse 401 (Throw Sample.invalid_json)));
      reflexivity.
  - apply (proj2 (unparsable_body_rejects_wrapped Sample.formurlencoded
                    Sample.net_text)
             _ _ _ (mkResponse 401 (Throw Sample.invalid_json)));
      reflexivity.
Defined.

Lemma exchange_rejections_carry_no_status_witness :
  get_prop
    (VObj [("msg", VStr "Error requesting access token from https://auth.example.org/oauth2/access_token");
           ("err", VObj [("status", VNum 403); ("data", Sample.error_body)])])
    "status" = Ok VUndef /\
  get_prop
    (VObj [("msg", VStr "Error requesting tokeninfo from https://auth.example.org/oauth2/tokeninfo");
           ("err", Sample.ECONNREFUSED)])
    "status" = Ok VUndef.
Proof.
  split.
  - apply (proj1 (exchange_rejections_carry_no_status Sample.formurlencoded
                    Sample.net_forbidden)
             (VObj [("grant_type", VStr "password")]) "Basic frontend:hush"
             "https://auth.example.org/oauth2/access_token" "/services"
             sample_w).
    reflexivity.
  - apply (proj2 (exchange_rejections_carry_no_status Sample.formurlencoded
                    Sample.net_down)
             "https://auth.example.org/oauth2/tokeninfo" "abc" sample_w).
    reflexivity.
Defined.

(** [getAccessToken] on a platform with the given parser, network and file
    system. *)
Abbreviation acquire_on parse net fs :=
  (getAccessToken Sample.AUTHORIZATION_CODE_GRANT
     Sample.PASSWORD_CREDENTIALS_GRANT Sample.getBasicAuthHeaderValue
     Sample.validateOAuthConfig parse Sample.formurlencoded net fs false).

(** A theorem about [getAccessToken] at that platform. *)
Abbreviation at_platform T parse net fs :=
  (T Sample.AUTHORIZATION_CODE_GRANT
     Sample.PASSWORD_CREDENTIALS_GRANT Sample.getBasicAuthHeaderValue
     Sample.validateOAuthConfig parse Sample.formurlencoded net fs false).

Lemma getAccessToken_reads_then_at_most_one_post_witness :
  (exists p,
     fst (acquire_on Sample.JSON_parse Sample.net_ok Sample.fs
            (Sample.password_options_on "credentials" (Some ["a"; "b"]))
            sample_w) = Returned p) /\
  acquire_on Sample.JSON_parse Sample.net_ok Sample.fs
    (Sample.password_options_on "" (Some ["a"; "b"])) sample_w =
    (Threw (VErr TypeError "credentialsDir must be defined"), sample_w).
Proof.
  split.
  - apply (proj2 (at_platform getAccessToken_reads_then_at_most_one_post
                    Sample.JSON_parse Sample.net_ok Sample.fs
                    (Sample.password_options_on "credentials" (Some ["a"; "b"]))
                    sample_w) eq_refl).
  - apply (proj1 (at_platform getAccessToken_reads_then_at_most_one_post
                    Sample.JSON_parse Sample.net_ok Sample.fs
                    (Sample.password_options_on "" (Some ["a"; "b"]))
                    sample_w)).
    reflexivity.
Defined.

Lemma credential_read_failure_rejects_witness :
  (fst (acquire_on Sample.JSON_parse Sample.net_ok Sample.fs_more
          (Sample.password_options_on "no-user" (Some ["a"])) sample_w) =
     Returned (Rejected Sample.ENOENT) /\
   trace (snd (acquire_on Sample.JSON_parse Sample.net_ok Sample.fs_more
                 (Sample.password_options_on "no-user" (Some ["a"])) sample_w)) =
     Sample.reads_of "no-user") /\
  (fst (acquire_on Sample.JSON_parse Sample.net_ok Sample.fs_more
          (Sample.code_options_on "no-client") sample_w) =
     Returned (Rejected Sample.ENOENT) /\
   trace (snd (acquire_on Sample.JSON_parse Sample.net_ok Sample.fs_more
                 (Sample.code_options_on "no-client") sample_w)) =
     Sample.reads_of "no-client") /\
  (fst (acquire_on Sample.JSON_parse Sample.net_ok Sample.fs_more
          (Sample.code_options_on "missing") sample_w) =
     Returned (Rejected Sample.ENOENT) /\
   trace (snd (acquire_on Sample.JSON_parse Sample.net_ok Sample.fs_more
                 (Sample.code_options_on "missing") sample_w)) =
     Sample.reads_of "missing").
Proof.
  split; [|split].
  - apply (proj1 (at_platform credential_read_failure_rejects
                    Sample.JSON_parse Sample.net_ok Sample.fs_more
                    (Sample.password_options_on "no-user" (Some ["a"]))
                    sample_w eq_refl)
             Sample.ENOENT Sample.client_json); reflexivity.
  - apply (proj1 (proj2 (at_platform credential_read_failure_rejects
                    Sample.JSON_parse Sample.net_ok Sample.fs_more
                    (Sample.code_options_on "no-client")
                    sample_w eq_refl))
             Sample.user_json Sample.ENOENT); reflexivity.
  - apply (proj2 (proj2 (at_platform credential_read_failure_rejects
                    Sample.JSON_parse Sample.net_ok Sample.fs_more
                    (Sample.code_options_on "missing")
                    sample_w eq_refl))
             Sample.ENOENT Sample.ENOENT); reflexivity.
Defined.

Lemma credential_parse_failure_rejects_witness :
  (fst (acquire_on Sample.JSON_parse Sample.net_ok Sample.fs_more
          (Sample.code_options_on "garbled-user") sample_w) =
     Returned (Rejected (VErr SyntaxError "Unexpected token")) /\
   trace (snd (acquire_on Sample.JSON_parse Sample.net_ok Sample.fs_more
                 (Sample.code_options_on "garbled-user") sample_w)) =
     Sample.reads_of "garbled-user") /\
  (fst (acquire_on Sample.JSON_parse Sample.net_ok Sample.fs_more
          (Sample.code_options_on "garbled-client") sample_w) =
     Returned (Rejected (VErr SyntaxError "Unexpected token")) /\
   trace (snd (acquire_on Sample.JSON_parse Sample.net_ok Sample.fs_more
                 (Sample.code_options_on "garbled-client") sample_w)) =
     Sample.reads_of "garbled-client").
Proof.
  split.
  - apply (proj1 (at_platform credential_parse_failure_rejects
                    Sample.JSON_parse Sample.net_ok Sample.fs_more
                    (Sample.code_options_on "garbled-user") sample_w
                    "<html>" Sample.client_json eq_refl eq_refl eq_refl));
      reflexivity.
  - apply (proj2 (at_platform credential_parse_failure_rejects
                    Sample.JSON_parse Sample.net_ok Sample.fs_more
                    (Sample.code_options_on "garbled-client") sample_w
                    Sample.user_json "<html>" eq_refl eq_refl eq_refl)
             Sample.userData); reflexivity.
Defined.

Lemma password_grant_without_scopes_rejects_witness :
  (exists e,
     fst (acquire_on Sample.JSON_parse Sample.net_ok Sample.fs
            (Sample.password_options_on "credentials" None) sample_w) =
       Returned (Rejected e) /\ is_TypeError e) /\
  trace (snd (acquire_on Sample.JSON_parse Sample.net_ok Sample.fs
                (Sample.password_options_on "credentials" None) sample_w)) =
    Sample.reads_of "credentials".
Proof.
  apply (at_platform password_grant_without_scopes_rejects
           Sample.JSON_parse Sample.net_ok Sample.fs
           (Sample.password_options_on "credentials" None) sample_w
           Sample.user_json Sample.client_json Sample.userData Sample.clientData);
    reflexivity.
Defined.

Lemma null_credentials_document_rejects_witness :
  (exists e,
     fst (acquire_on Sample.JSON_parse_more Sample.net_ok Sample.fs_more
            (Sample.password_options_on "null-user" (Some ["a"])) sample_w) =
       Returned (Rejected e) /\ is_TypeError e) /\
  (exists e,
     fst (acquire_on Sample.JSON_parse_more Sample.net_ok Sample.fs_more
            (Sample.password_options_on "null-client" (Some ["a"])) sample_w) =
       Returned (Rejected e) /\ is_TypeError e) /\
  (exists e,
     fst (acquire_on Sample.JSON_parse_more Sample.net_ok Sample.fs_more
            (Sample.code_options_on "null-client") sample_w) =
       Returned (Rejected e) /\ is_TypeError e).
Proof.
  split; [|split].
  - apply (proj1 (at_platform null_credentials_document_rejects
                    Sample.JSON_parse_more Sample.net_ok Sample.fs_more
                    (Sample.password_options_on "null-user" (Some ["a"]))
                    sample_w "null" Sample.client_json VNull Sample.clientData
                    eq_refl eq_refl eq_refl eq_refl eq_refl)
             eq_refl eq_refl).
  - apply (proj1 (proj2 (at_platform null_credentials_document_rejects
                    Sample.JSON_parse_more Sample.net_ok Sample.fs_more
                    (Sample.password_options_on "null-client" (Some ["a"]))
                    sample_w Sample.user_json "null" Sample.userData VNull
                    eq_refl eq_refl eq_refl eq_refl eq_refl))
             eq_refl eq_refl (ex_intro _ ["a"] eq_refl) eq_refl).
  - apply (proj2 (proj2 (at_platform null_credentials_document_rejects
                    Sample.JSON_parse_more Sample.net_ok Sample.fs_more
                    (Sample.code_options_on "null-client")
                    sample_w Sample.user_json "null" Sample.userData VNull
                    eq_refl eq_refl eq_refl eq_refl eq_refl))
             eq_refl ltac:(discriminate) eq_refl).
Defined.

Lemma getAccessToken_settles_as_requestAccessToken_witness :
  fst (acquire_on Sample.JSON_parse Sample.net_ok Sample.fs
         (Sample.password_options_on "credentials" (Some ["a"; "b"]))
         sample_w) =
    Returned (Fulfilled Sample.token_body) /\
  fst (acquire_on Sample.JSON_parse Sample.net_forbidden Sample.fs
         (Sample.code_options_on "credentials") sample_w) =
    Returned
      (Rejected
         (VObj [("msg", VStr "Error requesting access token from https://auth.example.org/oauth2/access_token");
                ("err", VObj [("status", VNum 403);
                              ("data", Sample.error_body)])])).
Proof.
  split.
  - apply (proj1 (at_platform getAccessToken_settles_as_requestAccessToken
                    Sample.JSON_parse Sample.net_ok Sample.fs
                    (Sample.password_options_on "credentials" (Some ["a"; "b"]))
                    sample_w sample_w
                    Sample.user_json Sample.client_json
                    Sample.userData Sample.clientData
                    eq_refl eq_refl eq_refl eq_refl eq_refl eq_refl)
             ["a"; "b"] eq_refl eq_refl eq_refl).
  - apply (proj2 (at_platform getAccessToken_settles_as_requestAccessToken
                    Sample.JSON_parse Sample.net_forbidden Sample.fs
                    (Sample.code_options_on "credentials")
                    sample_w sample_w
                    Sample.user_json Sample.client_json
                    Sample.userData Sample.clientData
                    eq_refl eq_refl eq_refl eq_refl eq_refl eq_refl)
             eq_refl ltac:(discriminate)).
Defined.

(** A theorem about the request middleware at the concrete platform. *)
Abbreviation at_middleware T net :=
  (T Sample.match_ Sample.setScopes Sample.getHeaderValue
     Sample.extractAccessToken net).

Abbreviation bearer_w :=
  (Sample.w0 (Sample.request "/api" "Bearer abc" None)).

Lemma upstream_status_is_not_forwarded_witness :
  exists mw,
    sample_middleware Sample.net_forbidden = Ok mw /\
    trace (mw bearer_w) =
      [EvExtractToken "Bearer abc"; Sample.tokeninfo_call "abc"; EvReject 401].
Proof.
  eexists. split; [reflexivity|].
  apply (at_middleware upstream_status_is_not_forwarded Sample.net_forbidden
           Sample.mw_options _ bearer_w
           "https://auth.example.org/oauth2/tokeninfo" "abc"
           (mkResponse 403 (Ok Sample.error_body))
           eq_refl eq_refl eq_refl eq_refl
           ltac:(discriminate) eq_refl ltac:(discriminate)).
Defined.

Lemma middleware_needs_tokenInfoEndpoint_witness :
  (exists mw, sample_middleware Sample.net_ok = Ok mw) /\
  handleOAuthRequestMiddleware Sample.match_ Sample.setScopes
    Sample.getHeaderValue Sample.extractAccessToken Sample.net_ok
    (mkMwOptions (Some "") (Some ["/health"])) =
    Throw (VErr TypeError "tokenInfoEndpoint must be defined").
Proof.
  split.
  - apply (proj1 (at_middleware middleware_needs_tokenInfoEndpoint
                    Sample.net_ok Sample.mw_options)).
    eexists. split; [reflexivity | discriminate].
  - apply (proj2 (at_middleware middleware_needs_tokenInfoEndpoint
                    Sample.net_ok (mkMwOptions (Some "") (Some ["/health"])))).
    by right.
Defined.

Lemma successful_introspection_continues_witness :
  exists mw,
    sample_middleware Sample.net_scopes = Ok mw /\
    trace (mw bearer_w) =
      [EvExtractToken "Bearer abc"; Sample.tokeninfo_call "abc"; EvNext] /\
    req (mw bearer_w) = Sample.request "/api" "Bearer abc" (Some ["A"; "B"]).
Proof.
  eexists. split; [reflexivity|].
  apply (at_middleware successful_introspection_continues Sample.net_scopes
           Sample.mw_options _ bearer_w
           "https://auth.example.org/oauth2/tokeninfo" "abc"
           (mkResponse 200 (Ok Sample.tokeninfo_body)) Sample.tokeninfo_body
           (Sample.request "/api" "Bearer abc" (Some ["A"; "B"]))
           eq_refl eq_refl eq_refl eq_refl
           ltac:(discriminate) eq_refl eq_refl eq_refl eq_refl).
Defined.

(** The body [null] makes the sample [setScopes] throw a [TypeError]. *)
Lemma setScopes_failure_rejects_witness :
  exists mw,
    sample_middleware Sample.net_null = Ok mw /\
    trace (mw bearer_w) =
      [EvExtractToken "Bearer abc"; Sample.tokeninfo_call "abc"; EvReject 401].
Proof.
  eexists. split; [reflexivity|].
  apply (at_middleware setScopes_failure_rejects Sample.net_null
           Sample.mw_options _ bearer_w
           "https://auth.example.org/oauth2/tokeninfo" "abc"
           (mkResponse 200 (Ok VNull)) VNull
           (VErr TypeError "Cannot read property 'scope' of null")
           eq_refl eq_refl eq_refl eq_refl
           ltac:(discriminate) eq_refl eq_refl eq_refl eq_refl eq_refl).
Defined.

Lemma middleware_calls_introspection_at_most_once_witness :
  exists mw,
    sample_middleware Sample.net_scopes = Ok mw /\
    exists evs,
      trace (mw bearer_w) = evs /\
      forall i j r1 r2,
        evs !! i = Some (EvFetch r1) -> evs !! j = Some (EvFetch r2) -> i = j.
Proof.
  eexists. split; [reflexivity|].
  destruct (at_middleware middleware_calls_introspection_at_most_once
              Sample.net_scopes Sample.mw_options _ bearer_w eq_refl)
    as (evs & Htr & Honce & _).
  exists evs. split; [exact Htr | exact Honce].
Defined.

Lemma requireScopes_ignores_order_and_duplicates_witness :
  trace (requireScopesMiddleware (Some ["B"; "A"; "A"])
           (set_req (mkInbound "/api" [] (Some ["A"; "B"; "C"])) sample_w)) =
  trace (requireScopesMiddleware (Some ["A"; "B"])
           (set_req (mkInbound "/api" [] (Some ["C"; "C"; "B"; "A"])) sample_w)).
Proof.
  apply requireScopes_ignores_order_and_duplicates.
  - intros s. rewrite !elem_of_cons, !elem_of_nil. tauto.
  - intros s. rewrite !elem_of_cons, !elem_of_nil. tauto.
Defined.

Lemma requireScopes_monotone_witness :
  requireScopesMiddleware (Some ["A"])
    (Sample.w0 (Sample.request "/api" "" (Some ["A"; "B"; "C"]))) =
  log EvNext (Sample.w0 (Sample.request "/api" "" (Some ["A"; "B"; "C"]))).
Proof.
  apply (requireScopes_monotone (Some ["A"; "B"]) (Some ["A"])
           (Sample.w0 (Sample.request "/api" "" (Some ["A"; "B"])))).
  - intros s. simpl. rewrite !elem_of_cons, !elem_of_nil. tauto.
  - intros s. simpl. rewrite !elem_of_cons, !elem_of_nil. tauto.
  - vm_compute. reflexivity.
Defined.

Lemma validated_request_then_scope_check_witness :
  exists mw,
    sample_middleware Sample.net_scopes = Ok mw /\
    trace (requireScopesMiddleware (Some ["A"]) (mw bearer_w)) =
      [EvExtractToken "Bearer abc"; Sample.tokeninfo_call "abc";
       EvNext; EvNext] /\
    trace (requireScopesMiddleware (Some ["A"; "admin"]) (mw bearer_w)) =
      [EvExtractToken "Bearer abc"; Sample.tokeninfo_call "abc";
       EvNext; EvReject 403].
Proof.
  eexists. split; [reflexivity|]. split.
  - apply (proj1 (at_middleware validated_request_then_scope_check
             Sample.net_scopes Sample.mw_options _ bearer_w
             "https://auth.example.org/oauth2/tokeninfo" "abc"
             (mkResponse 200 (Ok Sample.tokeninfo_body)) Sample.tokeninfo_body
             (Sample.request "/api" "Bearer abc" (Some ["A"; "B"]))
             (Some ["A"])
             eq_refl eq_refl eq_refl eq_refl
             ltac:(discriminate) eq_refl eq_refl eq_refl eq_refl)).
    intros s. simpl. rewrite !elem_of_cons, !elem_of_nil. tauto.
  - apply (proj2 (at_middleware validated_request_then_scope_check
             Sample.net_scopes Sample.mw_options _ bearer_w
             "https://auth.example.org/oauth2/tokeninfo" "abc"
             (mkResponse 200 (Ok Sample.tokeninfo_body)) Sample.tokeninfo_body
             (Sample.request "/api" "Bearer abc" (Some ["A"; "B"]))
             (Some ["A"; "admin"])
             eq_refl eq_refl eq_refl eq_refl
             ltac:(discriminate) eq_refl eq_refl eq_refl eq_refl)).
    intros H. specialize (H "admin"). simpl in H.
    rewrite !elem_of_cons, !elem_of_nil in H.
    assert ("admin" = "A" \/ "admin" = "B" \/ False) as [|[|[]]]; [|done..].
    apply H. tauto.
Defined.

(** The validator of the concrete platform fails on every unrecognized grant
    type, with a [TypeError]. *)
Lemma sample_validator_rejects_unrecognized :
  rejects_unrecognized_grantType Sample.AUTHORIZATION_CODE_GRANT
    Sample.PASSWORD_CREDENTIALS_GRANT Sample.validateOAuthConfig.
Proof.
  intros options Hp Ha. unfold Sample.validateOAuthConfig.
  destruct (String.eqb (credentialsDir options) ""); [by eexists|].
  destruct (String.eqb (accessTokenEndpoint options) ""); [by eexists|].
  destruct (String.eqb (realm options) ""); [by eexists|].
  rewrite (strict_eq_str_false _ _ Hp), (strict_eq_str_false _ _ Ha).
  by eexists.
Qed.

Lemma unrecognized_grantType_fails_at_once_witness :
  exists e,
    acquire_on Sample.JSON_parse Sample.net_ok Sample.fs
      (Sample.password_options "credentials" (VStr "implicit")) sample_w =
      (Threw e, sample_w) /\
    is_TypeError e.
Proof.
  apply (proj1 (at_platform unrecognized_grantType_fails_at_once
                  Sample.JSON_parse Sample.net_ok Sample.fs
                  (Sample.password_options "credentials" (VStr "implicit"))
                  sample_w ltac:(discriminate) ltac:(discriminate))).
  exact sample_validator_rejects_unrecognized.
Defined.

(** The introspection endpoint answers 403 with a JSON body: the status 403
    is under [err] of the rejection value, and the request is rejected with
    401. *)
Lemma introspection_status_is_lost_witness :
  exists mw,
    sample_middleware Sample.net_forbidden = Ok mw /\
    exists e err,
      fst (getTokenInfo Sample.net_forbidden
             "https://auth.example.org/oauth2/tokeninfo" "abc"
             (log (EvExtractToken "Bearer abc") bearer_w)) = Rejected e /\
      get_prop e "err" = Ok err /\
      get_prop err "status" = Ok (VNum 403) /\
      get_prop e "status" = Ok VUndef /\
      trace (mw bearer_w) =
        [EvExtractToken "Bearer abc"; Sample.tokeninfo_call "abc";
         EvReject 401].
Proof.
  eexists. split; [reflexivity|].
  apply (at_middleware introspection_status_is_lost Sample.net_forbidden
           Sample.mw_options _ bearer_w
           "https://auth.example.org/oauth2/tokeninfo" "abc"
           (mkResponse 403 (Ok Sample.error_body)) Sample.error_body
           eq_refl eq_refl eq_refl eq_refl
           ltac:(discriminate) eq_refl ltac:(discriminate) eq_refl).
Defined.

(** A silent endpoint: the call is made and both promises stay pending. *)
Lemma each_exchange_is_one_call_witness :
  fst (requestAccessToken Sample.formurlencoded Sample.net_silent
         (VObj [("grant_type", VStr "password")]) "Basic frontend:hush"
         "https://auth.example.org/oauth2/access_token" "/services" sample_w) =
    Pending /\
  fst (getTokenInfo Sample.net_silent
         "https://auth.example.org/oauth2/tokeninfo" "abc" sample_w) =
    Pending /\
  trace (snd (getTokenInfo Sample.net_silent
                "https://auth.example.org/oauth2/tokeninfo" "abc" sample_w)) =
    [Sample.tokeninfo_call "abc"].
Proof.
  split; [|split].
  - apply (proj2 (proj2 (proj1 (each_exchange_is_one_call
             Sample.formurlencoded Sample.net_silent
             (VObj [("grant_type", VStr "password")]) "Basic frontend:hush"
             "https://auth.example.org/oauth2/access_token" "/services"
             "https://auth.example.org/oauth2/tokeninfo" "abc" sample_w)))).
    reflexivity.
  - apply (proj2 (proj2 (proj2 (each_exchange_is_one_call
             Sample.formurlencoded Sample.net_silent
             (VObj [("grant_type", VStr "password")]) "Basic frontend:hush"
             "https://auth.example.org/oauth2/access_token" "/services"
             "https://auth.example.org/oauth2/tokeninfo" "abc" sample_w)))).
    reflexivity.
  - apply (proj1 (proj2 (each_exchange_is_one_call
             Sample.formurlencoded Sample.net_silent
             (VObj [("grant_type", VStr "password")]) "Basic frontend:hush"
             "https://auth.example.org/oauth2/access_token" "/services"
             "https://auth.example.org/oauth2/tokeninfo" "abc" sample_w))).
Defined.
